(** * Family finance book: a model of [app.py]

    [app.py] is a Streamlit script.  On every run it reads the Google
    sheet into a pandas DataFrame ([get_data], [load_df]), offers an
    entry form (tab 1: widgets, then [save_entry]) and a monthly report
    (tab 2: date conversion, month filter, totals, grouped detail).

    The embedding follows the script:
    - a Python [dict] literal is an association list (key order matters:
      [list(d.keys())] and [list.index] are used on it);
    - a sheet row / DataFrame row is a record of the seven columns;
    - the date column holds strings as read from the sheet, and
      timestamps once [pd.to_datetime] has replaced it;
    - an amount is the decimal number of its cell, an exact rational,
      and the sums of the report are exact; the script holds the amounts
      as float64 and rounds every sum, which the binary64 layer computes
      on doubles where the rounding decides a statement; cells of the
      amount column that are not numbers are not modelled;
    - a Python exception is [None];
    - [pd.to_datetime]'s string parser is a parameter of the report;
      [iso_date] is its instance on the [%Y-%m-%d] strings the form
      writes;
    - the script mutates the DataFrame it loaded ([df["日期"] = ...]), so
      the report returns the frame next to what it displays. *)

From Stdlib Require Import List String Ascii Bool ZArith QArith Lia.
From Stdlib Require Import Floats Uint63.
From Stdlib Require Import Sorted Permutation OrderedTypeEx Setoid Morphisms.
Import ListNotations.

Open Scope string_scope.

(** ** Python lists and dicts of strings *)

(** [d[k]] on a dict literal; [None] is [KeyError]. *)
Fixpoint dict_get {V : Type} (d : list (string * V)) (k : string) : option V :=
  match d with
  | [] => None
  | (k', v) :: rest => if String.eqb k' k then Some v else dict_get rest k
  end.

(** [list(d.keys())]. *)
Definition keys {V : Type} (d : list (string * V)) : list string :=
  map fst d.

(** [x in l]. *)
Definition list_in (x : string) (l : list string) : bool :=
  existsb (String.eqb x) l.

(** [l.index(x)]; [None] is [ValueError]. *)
Fixpoint list_index (x : string) (l : list string) : option nat :=
  match l with
  | [] => None
  | y :: rest =>
      if String.eqb y x then Some 0%nat
      else option_map S (list_index x rest)
  end.

(** ** The category tables (app.py, lines 47-60) *)

Definition MEMBERS : list string := ["Connie"; "Kam"; "曦晴"; "曦朗"].

Definition CATEGORIES : list (string * list (string * list string)) :=
  [ ("收入",
      [ ("薪金", ["每月薪金"]);
        ("其他", ["花紅"; "投資回報"; "其他收入"]) ]);
    ("支出",
      [ ("家庭支出", ["供樓"; "管理費"; "水費"; "電費"; "煤氣費"; "電話費";
                      "上網費"; "串流平台"; "差餉"; "外傭薪金"; "家庭日常用品"]);
        ("個人支出", ["早午晚三餐"; "購物"; "娛樂"; "個人其他"]);
        ("小朋友支出", ["學費"; "興趣班"; "醫療"; "其他費用"]);
        ("交通費用", ["車費"; "車充電費用"; "泊車"; "交通其他"]);
        ("儲蓄與保險", ["存款"; "保險"; "旅遊基金"]) ]) ].

(** The taxonomy as the specification words it: the same table with the
    English names the specification uses for the labels. *)
Definition spec_taxonomy : list (string * list (string * list string)) :=
  [ ("Income",
      [ ("Salary", ["MonthlySalary"]);
        ("Other", ["Bonus"; "InvestmentReturn"; "OtherIncome"]) ]);
    ("Expense",
      [ ("Household", ["Mortgage"; "ManagementFee"; "Water"; "Electricity";
                       "Gas"; "Phone"; "Internet"; "Streaming"; "Rates";
                       "DomesticHelperSalary"; "HouseholdSupplies"]);
        ("Personal", ["Meals"; "Shopping"; "Entertainment"; "PersonalOther"]);
        ("Children", ["Tuition"; "ActivityClasses"; "Medical"; "OtherFees"]);
        ("Transport", ["Fare"; "EVCharging"; "Parking"; "TransportOther"]);
        ("SavingsInsurance", ["Deposit"; "Insurance"; "TravelFund"]) ]) ].

(** The label each English name of the specification stands for. *)
Definition glossary : list (string * string) :=
  [ ("Income", "收入"); ("Expense", "支出");
    ("Salary", "薪金"); ("MonthlySalary", "每月薪金");
    ("Other", "其他"); ("Bonus", "花紅"); ("InvestmentReturn", "投資回報");
    ("OtherIncome", "其他收入");
    ("Household", "家庭支出"); ("Mortgage", "供樓");
    ("ManagementFee", "管理費"); ("Water", "水費"); ("Electricity", "電費");
    ("Gas", "煤氣費"); ("Phone", "電話費"); ("Internet", "上網費");
    ("Streaming", "串流平台"); ("Rates", "差餉");
    ("DomesticHelperSalary", "外傭薪金"); ("HouseholdSupplies", "家庭日常用品");
    ("Personal", "個人支出"); ("Meals", "早午晚三餐"); ("Shopping", "購物");
    ("Entertainment", "娛樂"); ("PersonalOther", "個人其他");
    ("Children", "小朋友支出"); ("Tuition", "學費");
    ("ActivityClasses", "興趣班"); ("Medical", "醫療"); ("OtherFees", "其他費用");
    ("Transport", "交通費用"); ("Fare", "車費"); ("EVCharging", "車充電費用");
    ("Parking", "泊車"); ("TransportOther", "交通其他");
    ("SavingsInsurance", "儲蓄與保險"); ("Deposit", "存款");
    ("Insurance", "保險"); ("TravelFund", "旅遊基金") ].

Definition label (name : string) : string :=
  match dict_get glossary name with
  | Some l => l
  | None => name
  end.

Definition relabel (t : list (string * list (string * list string)))
  : list (string * list (string * list string)) :=
  map (fun kind =>
         (label (fst kind),
          map (fun main => (label (fst main), map label (snd main)))
              (snd kind)))
      t.

(** [list(CATEGORIES[tx_type].keys())] (line 85) and
    [CATEGORIES[tx_type][main_cat]] (line 91); [None] is [KeyError]. *)
Definition available_main (tx_type : string) : option (list string) :=
  option_map keys (dict_get CATEGORIES tx_type).

Definition sub_options (tx_type main_cat : string) : option (list string) :=
  match dict_get CATEGORIES tx_type with
  | Some mains => dict_get mains main_cat
  | None => None
  end.

(** The triple is an entry of the table. *)
Definition in_taxonomy (tx_type main_cat sub_cat : string) : bool :=
  match sub_options tx_type main_cat with
  | Some subs => list_in sub_cat subs
  | None => false
  end.

(** ** The default main category (app.py, lines 85-88) *)

Definition default_idx (tx_type member : string)
    (available_main : list string) : option nat :=
  if String.eqb tx_type "支出"
     && list_in member ["曦晴"; "曦朗"]
     && list_in "小朋友支出" available_main
  then list_index "小朋友支出" available_main
  else Some 0%nat.

(** ** Dates *)

Record date := mkDate { year : Z; month : Z; day : Z }.

(** A cell of a datetime column: a timestamp (the script only has whole
    days), or pandas' missing value. *)
Inductive timestamp :=
| NaT
| Ts (d : date).

(** A cell of the date column: the string read from the sheet, or what
    [pd.to_datetime] made of it. *)
Inductive date_cell :=
| DStr (s : string)
| DTs (t : timestamp).

Definition digit (n : Z) : ascii :=
  ascii_of_N (48 + Z.to_N (n mod 10)).

Definition pad2 (n : Z) : string :=
  String (digit (n / 10)) (String (digit n) "").

Definition pad4 (n : Z) : string :=
  String (digit (n / 1000)) (String (digit (n / 100)) (pad2 n)).

(** [date.strftime("%Y-%m-%d")], for the four-digit years of the date
    widget. *)
Definition strftime (d : date) : string :=
  pad4 (year d) ++ "-" ++ pad2 (month d) ++ "-" ++ pad2 (day d).

Definition digit_val (c : ascii) : option Z :=
  let n := Z.of_N (N_of_ascii c) in
  if (48 <=? n)%Z && (n <=? 57)%Z then Some (n - 48)%Z else None.

Definition leap (y : Z) : bool :=
  ((y mod 4 =? 0) && negb (y mod 100 =? 0) || (y mod 400 =? 0))%Z.

Definition days_in_month (y m : Z) : Z :=
  if (m =? 2)%Z then (if leap y then 29 else 28)%Z
  else if ((m =? 4) || (m =? 6) || (m =? 9) || (m =? 11))%Z then 30%Z
  else 31%Z.

Definition number (ds : list ascii) : option Z :=
  fold_left
    (fun acc c =>
       match acc, digit_val c with
       | Some n, Some d => Some (10 * n + d)%Z
       | _, _ => None
       end)
    ds (Some 0%Z).

(** The instance of pandas' date parser on the strings the form writes:
    [YYYY-MM-DD] is read as that day, the empty cell as [NaT].  Any
    other string is left unread here. *)
Definition iso_date (s : string) : option timestamp :=
  match s with
  | "" => Some NaT
  | String y1 (String y2 (String y3 (String y4 (String "-"%char
      (String m1 (String m2 (String "-"%char
        (String d1 (String d2 ""))))))))) =>
      match number [y1; y2; y3; y4], number [m1; m2], number [d1; d2] with
      | Some y, Some m, Some d =>
          if ((1 <=? y) && (1 <=? m) && (m <=? 12)
              && (1 <=? d) && (d <=? days_in_month y m))%Z
          then Some (Ts (mkDate y m d))
          else None
      | _, _, _ => None
      end
  | _ => None
  end.

(** ** Rows, the sheet and the DataFrame *)

(** One row of the seven columns 日期, 成員, 收支類型, 主類別, 細項,
    金額, 備註; [D] is the type of the date cell. *)
Record record (D : Type) := mkRecord {
  col_date : D;
  col_member : string;
  col_type : string;
  col_main : string;
  col_sub : string;
  col_amount : Q;
  col_note : string
}.

Arguments mkRecord {D}.
Arguments col_date {D}.
Arguments col_member {D}.
Arguments col_type {D}.
Arguments col_main {D}.
Arguments col_sub {D}.
Arguments col_amount {D}.
Arguments col_note {D}.

Definition set_date {D E : Type} (r : record D) (d : E) : record E :=
  mkRecord d (col_member r) (col_type r) (col_main r) (col_sub r)
           (col_amount r) (col_note r).

(** The worksheet: its data rows under the header row, in sheet order. *)
Definition worksheet := list (record string).

Definition get_all_records (sheet : worksheet) : list (record string) :=
  sheet.

Definition append_row (sheet : worksheet) (r : record string) : worksheet :=
  (sheet ++ [r])%list.

Record DataFrame := mkFrame {
  columns : list string;
  rows : list (record date_cell)
}.

Definition COLUMNS : list string :=
  ["日期"; "成員"; "收支類型"; "主類別"; "細項"; "金額"; "備註"].

(** [pd.DataFrame(data)] on the records of the sheet.  The header row
    of the sheet is taken to be the seven column names, as the row
    format of [save_entry] supposes; the date cells are the strings of
    the sheet. *)
Definition DataFrame_of (data : list (record string)) : DataFrame :=
  mkFrame COLUMNS (map (fun r => set_date r (DStr (col_date r))) data).

(** [df.empty]. *)
Definition empty (df : DataFrame) : bool :=
  match rows df with
  | [] => true
  | _ :: _ => false
  end.

(** app.py, lines 35-39. *)
Definition load_df (sheet : worksheet) : DataFrame :=
  let data := get_all_records sheet in
  match data with
  | [] => mkFrame COLUMNS []
  | _ :: _ => DataFrame_of data
  end.

(** app.py, lines 41-44. *)
Definition save_entry (sheet : worksheet) (entry_list : record string)
  : worksheet :=
  append_row sheet entry_list.

(** ** Tab 1: the entry form (app.py, lines 77-106) *)

(** What the user has done to the widgets: the position picked in each
    choice widget ([None]: untouched), the day shown by the date widget,
    and the amount and note typed ([None]: untouched). *)
Record form := mkForm {
  pick_tx : option nat;
  pick_member : option nat;
  pick_date : date;
  pick_main : option nat;
  pick_sub : option nat;
  typed_amount : option Q;
  typed_note : string
}.

(** [st.selectbox(label, options, index)] and [st.radio(label, options)]
    ([index] 0): the option at the picked position, the one at [index]
    while untouched.  [None]: an [index] outside the options is refused
    by Streamlit, and a position outside them cannot be picked. *)
Definition selectbox (options : list string) (index : nat)
    (pick : option nat) : option string :=
  match nth_error options index with
  | None => None
  | Some preset =>
      match pick with
      | None => Some preset
      | Some i => nth_error options i
      end
  end.

(** [st.number_input(label, min_value)]: [min_value] while untouched; a
    number under [min_value] is not a value the widget takes. *)
Definition number_input (min_value : Q) (typed : option Q) : option Q :=
  match typed with
  | None => Some min_value
  | Some v => if Qle_bool min_value v then Some v else None
  end.

Definition bind {A B : Type} (x : option A) (k : A -> option B) : option B :=
  match x with
  | Some a => k a
  | None => None
  end.

Notation "x <- e ;; k" := (bind e (fun x => k))
  (at level 61, e at next level, right associativity).

(** Lines 79-98: the widgets, then [entry]. *)
Definition entry (f : form) : option (record string) :=
  tx_type <- selectbox ["支出"; "收入"] 0 (pick_tx f) ;;
  member <- selectbox MEMBERS 0 (pick_member f) ;;
  mains <- dict_get CATEGORIES tx_type ;;
  idx <- default_idx tx_type member (keys mains) ;;
  main_cat <- selectbox (keys mains) idx (pick_main f) ;;
  subs <- dict_get mains main_cat ;;
  sub_cat <- selectbox subs 0 (pick_sub f) ;;
  amount <- number_input 0 (typed_amount f) ;;
  Some (mkRecord (strftime (pick_date f)) member tx_type main_cat sub_cat
                 amount (typed_note f)).


(** ** Tab 2: the monthly report (app.py, lines 114-143) *)

Definition group_key := (string * string * string)%type.

(** The grouping columns 主類別, 細項, 成員. *)
Definition key_of {D : Type} (r : record D) : group_key :=
  (col_main r, col_sub r, col_member r).

(** Python's order on tuples of strings, the order in which pandas lists
    the groups.  Strings are UTF-8 here, and comparing UTF-8 bytes
    orders strings as comparing code points does. *)
Definition key_compare (a b : group_key) : comparison :=
  let '(a1, a2, a3) := a in
  let '(b1, b2, b3) := b in
  match String.compare a1 b1 with
  | Eq =>
      match String.compare a2 b2 with
      | Eq => String.compare a3 b3
      | c => c
      end
  | c => c
  end.

(** [Series.sum()]. *)
Definition col_sum (amounts : list Q) : Q :=
  fold_left Qplus amounts 0.

(** One more row for a grouped sum whose groups are kept in key order. *)
Fixpoint group_add (k : group_key) (v : Q) (acc : list (group_key * Q))
  : list (group_key * Q) :=
  match acc with
  | [] => [(k, v)]
  | (k', s) :: rest =>
      match key_compare k k' with
      | Lt => (k, v) :: acc
      | Eq => (k', s + v) :: rest
      | Gt => (k', s) :: group_add k v rest
      end
  end.

(** [groupby(["主類別", "細項", "成員"])["金額"].sum().reset_index()]:
    one line per key, in key order, amounts added in row order. *)
Definition groupby_sum {D : Type} (l : list (record D))
  : list (group_key * Q) :=
  fold_left (fun acc r => group_add (key_of r) (col_amount r) acc) l [].

(** [df[df["收支類型"] == t]]. *)
Definition of_type {D : Type} (t : string) (l : list (record D))
  : list (record D) :=
  filter (fun r => String.eqb (col_type r) t) l.

(** [.dt.month == selected_month] on one cell: false on [NaT].  The
    column has no string cell left when the script gets here. *)
Definition month_is (selected_month : Z) (c : date_cell) : bool :=
  match c with
  | DTs (Ts d) => (month d =? selected_month)%Z
  | _ => false
  end.

(** What tab 2 shows: one of the two notices, or the three totals with
    the detail table when there is one.  The totals are the numbers
    handed to the display; drawing the chart is left out. *)
Inductive view :=
| StInfo                                  (* 暫無資料。 *)
| StWarning (selected_month : Z)          (* ... 月無資料。 *)
| Report (inc exp bal : Q) (summary : option (list (group_key * Q))).

Section MonthlyReport.

(** [pd.to_datetime] on one string of the column; [None]: it raises. *)
Variable parse : string -> option timestamp.

Definition to_datetime_cell (c : date_cell) : option date_cell :=
  match c with
  | DStr s => option_map DTs (parse s)
  | DTs t => Some (DTs t)
  end.

(** [df["日期"] = pd.to_datetime(df["日期"])] on the rows. *)
Fixpoint to_datetime (l : list (record date_cell))
  : option (list (record date_cell)) :=
  match l with
  | [] => Some []
  | r :: rest =>
      c <- to_datetime_cell (col_date r) ;;
      rest' <- to_datetime rest ;;
      Some (set_date r c :: rest')
  end.

(** [df[df["日期"].dt.month == selected_month]]. *)
Definition m_df (l : list (record date_cell)) (selected_month : Z)
  : list (record date_cell) :=
  filter (fun r => month_is selected_month (col_date r)) l.

(** Lines 127-143 on a month with rows. *)
Definition metrics (m : list (record date_cell)) : view :=
  let inc := col_sum (map col_amount (of_type "收入" m)) in
  let exp := col_sum (map col_amount (of_type "支出" m)) in
  let exp_df := of_type "支出" m in
  Report inc exp (inc - exp)
    (match exp_df with
     | [] => None
     | _ :: _ => Some (groupby_sum exp_df)
     end).

(** Lines 114-143: the frame as the script leaves it, and the view. *)
Definition tab2 (df : DataFrame) (selected_month : Z)
  : option (DataFrame * view) :=
  if empty df then Some (df, StInfo)
  else
    l <- to_datetime (rows df) ;;
    let df' := mkFrame (columns df) l in
    match m_df l selected_month with
    | [] => Some (df', StWarning selected_month)
    | m => Some (df', metrics m)
    end.

End MonthlyReport.

(** ** Tab 1: the latest records (app.py, lines 108-111) *)

(** [df.tail(n)]: the last [n] rows, all of them when there are fewer. *)
Definition tail {A : Type} (n : nat) (l : list A) : list A :=
  skipn (List.length l - n) l.

(** The table under the form; [None]: it is not shown. *)
Definition recent (df : DataFrame) : option (list (record date_cell)) :=
  if empty df then None else Some (tail 5 (rows df)).

(** ** Tab 2: the month offered (app.py, lines 119-120) *)

(** [range(1, 13)]. *)
Definition month_range : list Z := map Z.of_nat (seq 1 12).

(** [st.selectbox] on options of any type. *)
Definition selectbox_of {A : Type} (options : list A) (index : nat)
    (pick : option nat) : option A :=
  match nth_error options index with
  | None => None
  | Some preset =>
      match pick with
      | None => Some preset
      | Some i => nth_error options i
      end
  end.

(** [st.selectbox("選擇月份", range(1, 13), index=current_month-1)]; a
    negative [index] is refused like one past the options. *)
Definition pick_month (current_month : Z) (pick : option nat) : option Z :=
  if (1 <=? current_month)%Z
  then selectbox_of month_range (Z.to_nat (current_month - 1)) pick
  else None.

(** ** The script (app.py, lines 63-143) *)

(** What one run leaves on the page: the latest records of tab 1 and
    the view of tab 2. *)
Record screen := mkScreen {
  shown_recent : option (list (record date_cell));
  shown_report : view
}.

(** One pass over the script with the button up, on the sheet as it is.
    The widgets of tab 1 are evaluated on every pass; the month widget
    exists only when the frame has rows.  [None]: the pass raises. *)
Definition pass (parse : string -> option timestamp) (sheet : worksheet)
    (f : form) (month_pick : option nat) (current_month : Z)
  : option screen :=
  let df := load_df sheet in
  _ <- entry f ;;
  if empty df then Some (mkScreen (recent df) StInfo)
  else
    m <- pick_month current_month month_pick ;;
    r <- tab2 parse df m ;;
    Some (mkScreen (recent df) (snd r)).

(** [main]: [connection] is the sheet [get_data] reaches ([None]: the
    connection fails, the script stops on its error message).  With the
    button down the entry is saved and the script runs again from the
    top with the button up ([st.rerun()]); the result is the sheet as
    the run leaves it and the page of the last pass. *)
Definition main (parse : string -> option timestamp)
    (connection : option worksheet) (f : form) (clicked : bool)
    (month_pick : option nat) (current_month : Z)
  : option (worksheet * screen) :=
  sheet <- connection ;;
  e <- entry f ;;
  let sheet' := if clicked then save_entry sheet e else sheet in
  s <- pass parse sheet' f month_pick current_month ;;
  Some (sheet', s).

(** ** The amounts as binary64 numbers *)

(** The column 金額 of the frame is a float64 column: each cell holds
    the double nearest to the decimal of the sheet, and every sum is
    rounded.  This layer computes the totals and the detail table of
    lines 127-143 on those doubles, over the same rows. *)

Definition z64 (z : Z) : float :=
  match z with
  | Z0 => 0%float
  | Zpos _ => PrimFloat.of_uint63 (Uint63.of_Z z)
  | Zneg n => PrimFloat.opp (PrimFloat.of_uint63 (Uint63.of_Z (Zpos n)))
  end.

(** The double of a cell: the correctly rounded quotient, for a decimal
    whose numerator and denominator are below 2^53. *)
Definition cell64 (q : Q) : float :=
  PrimFloat.div (z64 (Qnum q)) (z64 (Zpos (Qden q))).

(** Doubles added one after the other. *)
Definition sum64 (l : list float) : float :=
  fold_left PrimFloat.add l 0%float.

(** [Series.sum()] on a float64 column of fewer than eight cells, where
    numpy adds the cells one after the other (it adds in blocks from
    eight cells on). *)
Definition col_sum64 (amounts : list Q) : float :=
  sum64 (map cell64 amounts).

(** One step of the compensated sum pandas keeps per group: the sum so
    far and the compensation. *)
Definition kahan_add (s : float * float) (v : float) : float * float :=
  let '(sumx, compensation) := s in
  let y := PrimFloat.sub v compensation in
  let t := PrimFloat.add sumx y in
  let c := PrimFloat.sub (PrimFloat.sub t sumx) y in
  (t, if PrimFloat.is_nan c then 0%float else c).

Fixpoint group_add64 (k : group_key) (v : float)
    (acc : list (group_key * (float * float)))
  : list (group_key * (float * float)) :=
  match acc with
  | [] => [(k, kahan_add (0%float, 0%float) v)]
  | (k', s) :: rest =>
      match key_compare k k' with
      | Lt => (k, kahan_add (0%float, 0%float) v) :: acc
      | Eq => (k', kahan_add s v) :: rest
      | Gt => (k', s) :: group_add64 k v rest
      end
  end.

(** The grouped sum on doubles: one line per key, in key order. *)
Definition groupby_sum64 {D : Type} (l : list (record D))
  : list (group_key * float) :=
  map (fun line => (fst line, fst (snd line)))
      (fold_left
         (fun acc r => group_add64 (key_of r) (cell64 (col_amount r)) acc)
         l []).

(** Lines 127-143 on doubles: income, expense, balance, detail table. *)
Definition metrics64 (m : list (record date_cell))
  : float * float * float * option (list (group_key * float)) :=
  let inc := col_sum64 (map col_amount (of_type "收入" m)) in
  let exp := col_sum64 (map col_amount (of_type "支出" m)) in
  let exp_df := of_type "支出" m in
  (inc, exp, PrimFloat.sub inc exp,
   match exp_df with
   | [] => None
   | _ :: _ => Some (groupby_sum64 exp_df)
   end).

(** The rational a finite double is. *)
Definition exact (x : float) : option Q :=
  match Prim2SF x with
  | S754_zero _ => Some 0%Q
  | S754_finite sign m e =>
      Some ((if sign then - (Zpos m # 1) else (Zpos m # 1)) * Qpower 2 e)%Q
  | _ => None
  end.

(** Three expenses of March as the form writes them: 0.30 and 0.10 for
    one key, 0.20 for another. *)
Definition rounding_sheet : worksheet :=
  [ mkRecord "2024-03-01" "Kam" "支出" "個人支出" "購物" (3 # 10) "";
    mkRecord "2024-03-02" "Connie" "支出" "個人支出" "購物" (1 # 5) "";
    mkRecord "2024-03-03" "Kam" "支出" "個人支出" "購物" (1 # 10) "" ].

(** ** Notions the properties are stated with *)

Definition key_lt (a b : group_key) : Prop :=
  key_compare a b = Lt.

Definition key_eqb (a b : group_key) : bool :=
  match key_compare a b with
  | Eq => true
  | _ => false
  end.

(** The amount a grouped sum holds for a key (0 when it has no line). *)
Definition amount_of (k : group_key) (s : list (group_key * Q)) : Q :=
  col_sum (map snd (filter (fun p => key_eqb (fst p) k) s)).

(** A row of month [m] and kind [t]. *)
Definition selected (m : Z) (t : string) (r : record date_cell) : bool :=
  month_is m (col_date r) && String.eqb (col_type r) t.

(** The same row in another year. *)
Definition with_year (f : date -> Z) (r : record date_cell)
  : record date_cell :=
  match col_date r with
  | DTs (Ts d) => set_date r (DTs (Ts (mkDate (f d) (month d) (day d))))
  | _ => r
  end.

(** The lines of the detail table, none when it is not shown. *)
Definition lines (summary : option (list (group_key * Q)))
  : list (group_key * Q) :=
  match summary with
  | Some s => s
  | None => []
  end.

(** The row after the conversion of the date column, when its date
    converts. *)
Definition converted (parse : string -> option timestamp)
    (r : record date_cell) : record date_cell :=
  match to_datetime_cell parse (col_date r) with
  | Some c => set_date r c
  | None => r
  end.

(** Two detail tables with the same keys in the same order and equal
    amounts, and two views that show the same. *)
Definition same_lines (s1 s2 : list (group_key * Q)) : Prop :=
  Forall2 (fun p q => fst p = fst q /\ (snd p == snd q)%Q) s1 s2.

Definition same_view (v1 v2 : view) : Prop :=
  match v1, v2 with
  | StInfo, StInfo => True
  | StWarning m1, StWarning m2 => m1 = m2
  | Report i1 e1 b1 s1, Report i2 e2 b2 s2 =>
      (i1 == i2)%Q /\ (e1 == e2)%Q /\ (b1 == b2)%Q
      /\ match s1, s2 with
         | None, None => True
         | Some t1, Some t2 => same_lines t1 t2
         | _, _ => False
         end
  | _, _ => False
  end.

(** Two views of the same kind: the same notice, or totals with detail
    tables that list the same keys in the same order (or no table). *)
Definition same_keys (v1 v2 : view) : Prop :=
  match v1, v2 with
  | StInfo, StInfo => True
  | StWarning m1, StWarning m2 => m1 = m2
  | Report _ _ _ s1, Report _ _ _ s2 =>
      option_map (map fst) s1 = option_map (map fst) s2
  | _, _ => False
  end.

(** ** A sample sheet *)

(** Two entries of March 2024, one of March 2023 and one of April
    2023, as the form writes them. *)
Definition sample_sheet : worksheet :=
  [ mkRecord "2024-03-05" "Kam" "支出" "家庭支出" "電費" 500 "";
    mkRecord "2024-03-10" "Connie" "收入" "薪金" "每月薪金" 30000 "";
    mkRecord "2023-03-11" "Kam" "支出" "家庭支出" "電費" (1 # 2) "";
    mkRecord "2023-04-11" "曦晴" "支出" "小朋友支出" "學費" 1200 "" ].

(** Its frame after the report of March, and what that report shows. *)
Definition sample_frame : DataFrame :=
  Eval vm_compute in
    match tab2 iso_date (load_df sample_sheet) 3 with
    | Some (df', _) => df'
    | None => load_df sample_sheet
    end.

Definition sample_view : view :=
  Eval vm_compute in
    match tab2 iso_date (load_df sample_sheet) 3 with
    | Some (_, v) => v
    | None => StInfo
    end.

(** * Properties *)

(** ** Lists and dicts of strings *)

Lemma list_in_In (x : string) (l : list string) :
  list_in x l = true <-> In x l.
Proof.
  unfold list_in. rewrite existsb_exists. split.
  - intros [y [Hy Heq]]. apply String.eqb_eq in Heq. now subst.
  - intros H. exists x. split; [assumption | apply String.eqb_refl].
Qed.

(** The guard [x in l] makes [l.index(x)] safe: it returns the first
    position of [x], which is a position of [l]. *)
Lemma list_index_In (x : string) (l : list string) :
  In x l ->
  exists i, list_index x l = Some i
            /\ (i < List.length l)%nat
            /\ nth_error l i = Some x
            /\ forall j, (j < i)%nat -> nth_error l j <> Some x.
Proof.
  induction l as [| y rest IH]; intros Hin; [destruct Hin |].
  simpl. destruct (String.eqb y x) eqn:E.
  - apply String.eqb_eq in E. subst y. exists 0%nat.
    repeat split; simpl; lia.
  - apply String.eqb_neq in E.
    destruct Hin as [-> | Hin]; [congruence |].
    destruct (IH Hin) as (i & Hi & Hlt & Hnth & Hfirst).
    exists (S i). rewrite Hi. repeat split; simpl; try lia; try assumption.
    intros [| j] Hj; simpl.
    + congruence.
    + apply Hfirst. lia.
Qed.

Lemma dict_get_In {V : Type} (d : list (string * V)) (k : string) (v : V) :
  dict_get d k = Some v -> In (k, v) d.
Proof.
  induction d as [| [k' v'] rest IH]; simpl; [discriminate |].
  destruct (String.eqb k' k) eqn:E.
  - apply String.eqb_eq in E. intros [= ->]. subst. now left.
  - intros H. right. now apply IH.
Qed.


(** The kinds of the table are the two of the radio button. *)
Lemma CATEGORIES_kinds (tx_type : string)
    (mains : list (string * list string)) :
  dict_get CATEGORIES tx_type = Some mains ->
  tx_type = "收入" \/ tx_type = "支出".
Proof.
  unfold CATEGORIES. cbn [dict_get].
  destruct (String.eqb "收入" tx_type) eqn:E1.
  - apply String.eqb_eq in E1. now left.
  - destruct (String.eqb "支出" tx_type) eqn:E2.
    + apply String.eqb_eq in E2. now right.
    + discriminate.
Qed.

(** ** The category table *)

(** C7.  The table of the script is the taxonomy of the specification,
    kind by kind, main category by main category and item by item in the
    same order, once each English name is read as the label it stands
    for; the reading is one-to-one.  The table is a constant of the
    model: no operation takes it as an argument or returns it. *)
Theorem C7_taxonomy_is_the_fixed_table :
  relabel spec_taxonomy = CATEGORIES
  /\ NoDup (map fst glossary)
  /\ NoDup (map snd glossary)
  /\ available_main "收入" = Some ["薪金"; "其他"]
  /\ available_main "支出"
     = Some ["家庭支出"; "個人支出"; "小朋友支出"; "交通費用"; "儲蓄與保險"]
  /\ map (fun kind => map (fun main => List.length (snd main)) (snd kind))
         CATEGORIES
     = [[1; 3]; [11; 4; 4; 4; 3]]%nat.
Proof.
  split; [vm_compute; reflexivity |].
  split.
  { apply (NoDup_count_occ' string_dec). intros x Hx.
    vm_compute in Hx.
    repeat (destruct Hx as [<- | Hx]; [vm_compute; reflexivity |]).
    destruct Hx. }
  split.
  { apply (NoDup_count_occ' string_dec). intros x Hx.
    vm_compute in Hx.
    repeat (destruct Hx as [<- | Hx]; [vm_compute; reflexivity |]).
    destruct Hx. }
  repeat split; vm_compute; reflexivity.
Qed.

(** ** The default main category *)

(** C6.  For a kind of the table, the default position is that of
    小朋友支出 (position 2 of the expense categories) when the kind is
    支出 and the member is 曦晴 or 曦朗, and 0 in every other case, so
    for 收入 whoever the member is. *)
Theorem C6_default_main_category :
  forall (tx_type member : string) (mains : list string),
    available_main tx_type = Some mains ->
    default_idx tx_type member mains
    = (if String.eqb tx_type "支出" && list_in member ["曦晴"; "曦朗"]
       then list_index "小朋友支出" mains
       else Some 0%nat)
    /\ (tx_type = "支出" ->
        list_in "小朋友支出" mains = true
        /\ list_index "小朋友支出" mains = Some 2%nat
        /\ nth_error mains 2 = Some "小朋友支出")
    /\ (tx_type = "收入" -> default_idx tx_type member mains = Some 0%nat).
Proof.
  intros tx_type member mains H.
  unfold available_main in H.
  destruct (dict_get CATEGORIES tx_type) as [cats |] eqn:Hget;
    [| discriminate].
  injection H as <-.
  destruct (CATEGORIES_kinds _ _ Hget) as [-> | ->];
    vm_compute in Hget; injection Hget as <-.
  - split; [reflexivity |]. split; [discriminate | reflexivity].
  - split.
    + unfold default_idx.
      destruct (list_in member ["曦晴"; "曦朗"]); reflexivity.
    + split; [intros _; repeat split | discriminate].
Qed.

Lemma C6_default_main_category_witness :
  default_idx "支出" "曦晴"
    ["家庭支出"; "個人支出"; "小朋友支出"; "交通費用"; "儲蓄與保險"]
  = Some 2%nat.
Proof.
  destruct (C6_default_main_category "支出" "曦晴"
              ["家庭支出"; "個人支出"; "小朋友支出"; "交通費用"; "儲蓄與保險"]
              eq_refl) as [H _].
  exact H.
Defined.

(** C10.  For a kind of the table and any member, the default position
    is computed ([list.index] does not raise) and is a position of the
    kind's main categories. *)
Theorem C10_default_idx_in_range :
  forall (tx_type member : string) (cats : list (string * list string)),
    dict_get CATEGORIES tx_type = Some cats ->
    exists i, default_idx tx_type member (keys cats) = Some i
              /\ (i < List.length (keys cats))%nat
              /\ exists main_cat,
                   selectbox (keys cats) i None = Some main_cat.
Proof.
  intros tx_type member cats Hget.
  assert (Hne : (0 < List.length (keys cats))%nat).
  { destruct (CATEGORIES_kinds _ _ Hget) as [-> | ->];
      vm_compute in Hget; injection Hget as <-; simpl; lia. }
  assert (Hi : exists i, default_idx tx_type member (keys cats) = Some i
                         /\ (i < List.length (keys cats))%nat).
  { unfold default_idx.
    destruct (String.eqb tx_type "支出" && list_in member ["曦晴"; "曦朗"])%bool;
      cbn [andb].
    - destruct (list_in "小朋友支出" (keys cats)) eqn:Hin.
      + apply list_in_In in Hin.
        destruct (list_index_In _ _ Hin) as (i & Hi & Hlt & _).
        exists i. now split.
      + exists 0%nat. now split.
    - exists 0%nat. now split. }
  destruct Hi as (i & Hi & Hlt).
  exists i. repeat split; try assumption.
  unfold selectbox.
  destruct (nth_error (keys cats) i) as [s |] eqn:E.
  - now exists s.
  - apply nth_error_None in E. lia.
Qed.

Lemma C10_default_idx_in_range_witness :
  exists i,
    default_idx "支出" "曦朗"
      (keys [("家庭支出", ["供樓"; "管理費"; "水費"; "電費"; "煤氣費"; "電話費";
                           "上網費"; "串流平台"; "差餉"; "外傭薪金";
                           "家庭日常用品"]);
             ("個人支出", ["早午晚三餐"; "購物"; "娛樂"; "個人其他"]);
             ("小朋友支出", ["學費"; "興趣班"; "醫療"; "其他費用"]);
             ("交通費用", ["車費"; "車充電費用"; "泊車"; "交通其他"]);
             ("儲蓄與保險", ["存款"; "保險"; "旅遊基金"])])
    = Some i /\ (i < 5)%nat.
Proof.
  destruct (C10_default_idx_in_range "支出" "曦朗" _ eq_refl)
    as (i & Hi & Hlt & _).
  exists i. split; [exact Hi | exact Hlt].
Defined.

(** ** The entry form *)

Lemma bind_Some {A B : Type} (x : option A) (k : A -> option B) (b : B) :
  bind x k = Some b -> exists a, x = Some a /\ k a = Some b.
Proof.
  destruct x as [a |]; simpl; [| discriminate].
  intros H. now exists a.
Qed.



Lemma entry_date (f : form) (e : record string) :
  entry f = Some e ->
  col_date e = strftime (pick_date f) /\ col_note e = typed_note f.
Proof.
  unfold entry. intros H.
  repeat (apply bind_Some in H; destruct H as (? & _ & H)).
  injection H as <-. split; reflexivity.
Qed.

Lemma entry_amount (f : form) (e : record string) :
  entry f = Some e ->
  number_input 0 (typed_amount f) = Some (col_amount e).
Proof.
  unfold entry. intros H.
  do 7 (apply bind_Some in H; destruct H as (? & _ & H)).
  apply bind_Some in H. destruct H as (amount & Hamount & H).
  injection H as <-. exact Hamount.
Qed.


(** ** Sums of amounts *)

Lemma fold_left_Qplus (l : list Q) (a : Q) :
  (fold_left Qplus l a == a + fold_left Qplus l 0)%Q.
Proof.
  revert a. induction l as [| x l IH]; intros a; simpl.
  - ring.
  - rewrite (IH (a + x)%Q), (IH (0 + x)%Q). ring.
Qed.

Lemma col_sum_cons (x : Q) (l : list Q) :
  (col_sum (x :: l) == x + col_sum l)%Q.
Proof.
  unfold col_sum. simpl. rewrite fold_left_Qplus. ring.
Qed.

Lemma col_sum_app (l1 l2 : list Q) :
  (col_sum (l1 ++ l2) == col_sum l1 + col_sum l2)%Q.
Proof.
  induction l1 as [| x l1 IH]; simpl.
  - unfold col_sum at 2. simpl. ring.
  - rewrite !col_sum_cons, IH. ring.
Qed.

(** ** The order on keys *)

Lemma string_compare_refl (s : string) : String.compare s s = Eq.
Proof.
  pose proof (String.compare_antisym s s) as H.
  destruct (String.compare s s); simpl in H; congruence.
Qed.

Lemma string_compare_trans (a b c : string) :
  String.compare a b = Lt -> String.compare b c = Lt ->
  String.compare a c = Lt.
Proof.
  intros H1 H2.
  apply String_as_OT.cmp_lt in H1. apply String_as_OT.cmp_lt in H2.
  apply String_as_OT.cmp_lt. eapply String_as_OT.lt_trans; eassumption.
Qed.

Lemma key_compare_eq (a b : group_key) : key_compare a b = Eq -> a = b.
Proof.
  destruct a as [[a1 a2] a3], b as [[b1 b2] b3]. simpl.
  destruct (String.compare a1 b1) eqn:E1; try discriminate.
  destruct (String.compare a2 b2) eqn:E2; try discriminate.
  intros E3.
  apply String.compare_eq_iff in E1, E2, E3. now subst.
Qed.

Lemma key_compare_refl (a : group_key) : key_compare a a = Eq.
Proof.
  destruct a as [[a1 a2] a3]. simpl.
  now rewrite !string_compare_refl.
Qed.

Lemma key_compare_antisym (a b : group_key) :
  key_compare a b = CompOpp (key_compare b a).
Proof.
  destruct a as [[a1 a2] a3], b as [[b1 b2] b3]. simpl.
  rewrite (String.compare_antisym a1 b1), (String.compare_antisym a2 b2),
    (String.compare_antisym a3 b3).
  destruct (String.compare b1 a1); simpl; try reflexivity.
  destruct (String.compare b2 a2); reflexivity.
Qed.

Lemma key_lt_trans (a b c : group_key) :
  key_lt a b -> key_lt b c -> key_lt a c.
Proof.
  unfold key_lt.
  destruct a as [[a1 a2] a3], b as [[b1 b2] b3], c as [[c1 c2] c3]. simpl.
  destruct (String.compare a1 b1) eqn:A1; try discriminate.
  - apply String.compare_eq_iff in A1. subst b1.
    destruct (String.compare a1 c1) eqn:C1; try discriminate; trivial.
    destruct (String.compare a2 b2) eqn:A2; try discriminate.
    + apply String.compare_eq_iff in A2. subst b2.
      destruct (String.compare a2 c2) eqn:C2; try discriminate; trivial.
      apply string_compare_trans.
    + destruct (String.compare b2 c2) eqn:C2; try discriminate.
      * apply String.compare_eq_iff in C2. subst c2. now rewrite A2.
      * now rewrite (string_compare_trans _ _ _ A2 C2).
  - intros _.
    destruct (String.compare b1 c1) eqn:C1; try discriminate.
    + apply String.compare_eq_iff in C1. subst c1. now rewrite A1.
    + now rewrite (string_compare_trans _ _ _ A1 C1).
Qed.

Lemma key_lt_irrefl (a : group_key) : ~ key_lt a a.
Proof.
  unfold key_lt. rewrite key_compare_refl. discriminate.
Qed.

Lemma key_eqb_eq (a b : group_key) : key_eqb a b = true <-> a = b.
Proof.
  unfold key_eqb. split.
  - destruct (key_compare a b) eqn:E; try discriminate.
    intros _. now apply key_compare_eq.
  - intros ->. now rewrite key_compare_refl.
Qed.

Lemma key_lt_neqb (a b : group_key) : key_lt a b -> key_eqb b a = false.
Proof.
  intros H. destruct (key_eqb b a) eqn:E; [| reflexivity].
  apply key_eqb_eq in E. subst. now apply key_lt_irrefl in H.
Qed.

(** ** Grouped sums *)

Lemma group_add_keys (k : group_key) (v : Q) (acc : list (group_key * Q))
    (x : group_key) :
  In x (map fst (group_add k v acc)) <-> x = k \/ In x (map fst acc).
Proof.
  induction acc as [| [k' s] rest IH]; simpl.
  - intuition.
  - destruct (key_compare k k') eqn:E; simpl.
    + apply key_compare_eq in E. subst k'. intuition.
    + intuition.
    + rewrite IH. intuition.
Qed.

(** Adding a row keeps the lines in strictly increasing key order. *)
Lemma group_add_sorted (k : group_key) (v : Q) (acc : list (group_key * Q)) :
  StronglySorted key_lt (map fst acc) ->
  StronglySorted key_lt (map fst (group_add k v acc)).
Proof.
  induction acc as [| [k' s] rest IH]; simpl; intros Hs.
  - constructor; constructor.
  - inversion Hs as [| ? ? Hrest Hall]; subst.
    destruct (key_compare k k') eqn:E; simpl.
    + constructor; assumption.
    + constructor; [assumption |].
      constructor; [exact E |].
      eapply Forall_impl; [| exact Hall].
      intros x Hx. eapply key_lt_trans; [exact E | exact Hx].
    + constructor; [now apply IH |].
      apply Forall_forall. intros x Hx.
      apply group_add_keys in Hx. destruct Hx as [-> | Hx].
      * unfold key_lt. rewrite key_compare_antisym, E. reflexivity.
      * rewrite Forall_forall in Hall. now apply Hall.
Qed.

Lemma amount_of_cons (k k' : group_key) (s : Q) (rest : list (group_key * Q)) :
  (amount_of k ((k', s) :: rest)
   == (if key_eqb k' k then s else 0) + amount_of k rest)%Q.
Proof.
  unfold amount_of. simpl. destruct (key_eqb k' k); simpl.
  - apply col_sum_cons.
  - ring.
Qed.

(** Adding a row adds its amount to its own key and to no other. *)
Lemma group_add_amount (k0 : group_key) (v : Q) (acc : list (group_key * Q))
    (k : group_key) :
  (amount_of k (group_add k0 v acc)
   == amount_of k acc + (if key_eqb k0 k then v else 0))%Q.
Proof.
  induction acc as [| [k' s] rest IH]; simpl.
  - rewrite amount_of_cons. unfold amount_of, col_sum. simpl. ring.
  - destruct (key_compare k0 k') eqn:E.
    + apply key_compare_eq in E. subst k'.
      rewrite !amount_of_cons. destruct (key_eqb k0 k); ring.
    + rewrite (amount_of_cons k k0). rewrite !amount_of_cons.
      destruct (key_eqb k0 k), (key_eqb k' k); ring.
    + rewrite !amount_of_cons, IH. ring.
Qed.

Lemma group_add_total (k : group_key) (v : Q) (acc : list (group_key * Q)) :
  (col_sum (map snd (group_add k v acc)) == col_sum (map snd acc) + v)%Q.
Proof.
  induction acc as [| [k' s] rest IH]; simpl.
  - unfold col_sum. simpl. ring.
  - destruct (key_compare k k'); simpl.
    + rewrite !col_sum_cons. ring.
    + rewrite !col_sum_cons. ring.
    + rewrite !col_sum_cons, IH. ring.
Qed.

Section GroupBy.

Context {D : Type}.

Let step (acc : list (group_key * Q)) (r : record D) :=
  group_add (key_of r) (col_amount r) acc.

Lemma fold_group_sorted (l : list (record D)) (acc : list (group_key * Q)) :
  StronglySorted key_lt (map fst acc) ->
  StronglySorted key_lt (map fst (fold_left step l acc)).
Proof.
  revert acc. induction l as [| r l IH]; intros acc Hs; simpl.
  - exact Hs.
  - apply IH. now apply group_add_sorted.
Qed.

Lemma fold_group_keys (l : list (record D)) (acc : list (group_key * Q))
    (k : group_key) :
  In k (map fst (fold_left step l acc))
  <-> In k (map fst acc) \/ exists r, In r l /\ key_of r = k.
Proof.
  revert acc. induction l as [| r l IH]; intros acc; simpl.
  - split; [now left | intros [H | (r & [] & _)]; exact H].
  - rewrite IH. unfold step. rewrite group_add_keys. split.
    + intros [[-> | H] | (r' & Hr' & Hk)].
      * right. exists r. now split; [left |].
      * now left.
      * right. exists r'. now split; [right |].
    + intros [H | (r' & [<- | Hr'] & Hk)].
      * left. now right.
      * left. now left.
      * right. now exists r'.
Qed.

Lemma fold_group_amount (l : list (record D)) (acc : list (group_key * Q))
    (k : group_key) :
  (amount_of k (fold_left step l acc)
   == amount_of k acc
      + col_sum (map col_amount
                     (filter (fun r => key_eqb (key_of r) k) l)))%Q.
Proof.
  revert acc. induction l as [| r l IH]; intros acc; simpl.
  - unfold col_sum at 1. simpl. ring.
  - rewrite IH. unfold step. rewrite group_add_amount.
    destruct (key_eqb (key_of r) k); simpl.
    + rewrite col_sum_cons. ring.
    + ring.
Qed.

Lemma fold_group_total (l : list (record D)) (acc : list (group_key * Q)) :
  (col_sum (map snd (fold_left step l acc))
   == col_sum (map snd acc) + col_sum (map col_amount l))%Q.
Proof.
  revert acc. induction l as [| r l IH]; intros acc; simpl.
  - unfold col_sum at 3. simpl. ring.
  - rewrite IH. unfold step. rewrite group_add_total, col_sum_cons.
    ring.
Qed.

Lemma groupby_sum_sorted (l : list (record D)) :
  StronglySorted key_lt (map fst (groupby_sum l)).
Proof. apply fold_group_sorted. constructor. Qed.

Lemma groupby_sum_keys (l : list (record D)) (k : group_key) :
  In k (map fst (groupby_sum l)) <-> exists r, In r l /\ key_of r = k.
Proof.
  unfold groupby_sum.
  etransitivity; [apply (fold_group_keys l [] k) | simpl; tauto].
Qed.

Lemma groupby_sum_amount (l : list (record D)) (k : group_key) :
  (amount_of k (groupby_sum l)
   == col_sum (map col_amount
                   (filter (fun r => key_eqb (key_of r) k) l)))%Q.
Proof.
  unfold groupby_sum.
  etransitivity; [apply (fold_group_amount l [] k) |].
  unfold amount_of, col_sum at 1. simpl. ring.
Qed.

Lemma groupby_sum_total (l : list (record D)) :
  (col_sum (map snd (groupby_sum l)) == col_sum (map col_amount l))%Q.
Proof.
  unfold groupby_sum.
  etransitivity; [apply (fold_group_total l []) |].
  unfold col_sum at 1. simpl. ring.
Qed.

End GroupBy.

(** In a table in strict key order, the line of a key holds all of the
    key's amount. *)
Lemma sorted_line_amount (s : list (group_key * Q)) (k : group_key) (v : Q) :
  StronglySorted key_lt (map fst s) ->
  In (k, v) s ->
  (amount_of k s == v)%Q.
Proof.
  induction s as [| [k' v'] rest IH]; simpl; intros Hs Hin; [destruct Hin |].
  inversion Hs as [| ? ? Hrest Hall]; subst.
  rewrite amount_of_cons.
  destruct Hin as [[= -> ->] | Hin].
  - assert (E : key_eqb k k = true) by now apply key_eqb_eq.
    rewrite E.
    assert (Hnone : filter (fun p => key_eqb (fst p) k) rest = []).
    { clear IH Hs Hrest E. induction rest as [| [k2 v2] rest IH2]; simpl.
      - reflexivity.
      - inversion Hall as [| ? ? Hk Hall']; subst.
        rewrite (key_lt_neqb _ _ Hk). now apply IH2. }
    unfold amount_of. rewrite Hnone. unfold col_sum. simpl. ring.
  - rewrite Forall_forall in Hall.
    assert (Hlt : key_lt k' k).
    { apply Hall. apply in_map_iff. now exists (k, v). }
    assert (E : key_eqb k' k = false).
    { destruct (key_eqb k' k) eqn:E; [| reflexivity].
      apply key_eqb_eq in E. subst. now apply key_lt_irrefl in Hlt. }
    rewrite E, (IH Hrest Hin). ring.
Qed.

(** ** Loading the sheet *)

Lemma load_df_rows (sheet : worksheet) :
  rows (load_df sheet)
  = map (fun r => set_date r (DStr (col_date r))) sheet.
Proof. destruct sheet; reflexivity. Qed.

Lemma load_df_columns (sheet : worksheet) : columns (load_df sheet) = COLUMNS.
Proof. destruct sheet; reflexivity. Qed.

(** ** The month filter *)

Lemma m_df_In (l : list (record date_cell)) (m : Z) (r : record date_cell) :
  In r (m_df l m)
  <-> In r l /\ exists d, col_date r = DTs (Ts d) /\ month d = m.
Proof.
  unfold m_df. rewrite filter_In. unfold month_is. split.
  - intros [Hin H]. split; [exact Hin |].
    destruct (col_date r) as [s | [| d]]; try discriminate.
    exists d. split; [reflexivity | now apply Z.eqb_eq].
  - intros [Hin (d & -> & Hm)]. split; [exact Hin | now apply Z.eqb_eq].
Qed.

Lemma month_is_with_year (f : date -> Z) (m : Z) (r : record date_cell) :
  month_is m (col_date (with_year f r)) = month_is m (col_date r).
Proof.
  unfold with_year. destruct (col_date r) as [s | [| d]] eqn:E; simpl;
    rewrite ?E; reflexivity.
Qed.

Lemma m_df_with_year (f : date -> Z) (l : list (record date_cell)) (m : Z) :
  m_df (map (with_year f) l) m = map (with_year f) (m_df l m).
Proof.
  unfold m_df. induction l as [| r l IH]; simpl.
  - reflexivity.
  - rewrite month_is_with_year.
    destruct (month_is m (col_date r)); simpl; now rewrite IH.
Qed.

Lemma of_type_m_df (t : string) (l : list (record date_cell)) (m : Z) :
  of_type t (m_df l m) = filter (selected m t) l.
Proof.
  unfold of_type, m_df, selected. induction l as [| r l IH]; simpl.
  - reflexivity.
  - destruct (month_is m (col_date r)); simpl.
    + destruct (String.eqb (col_type r) t); now rewrite IH.
    + exact IH.
Qed.

Lemma m_df_app (l1 l2 : list (record date_cell)) (m : Z) :
  m_df (l1 ++ l2) m = (m_df l1 m ++ m_df l2 m)%list.
Proof. unfold m_df. apply filter_app. Qed.

(** ** The report *)

Section ReportFacts.

Variable parse : string -> option timestamp.

Lemma to_datetime_cell_fixed (c c' : date_cell) :
  to_datetime_cell parse c = Some c' ->
  to_datetime_cell parse c' = Some c'.
Proof.
  destruct c as [s | t]; simpl.
  - destruct (parse s); simpl; [| discriminate]. now intros [= <-].
  - now intros [= <-].
Qed.

(** The rows after the conversion: each is the row it was, with the
    date cell converted. *)
Lemma to_datetime_rows (l l' : list (record date_cell)) :
  to_datetime parse l = Some l' ->
  Forall2 (fun r r' =>
             to_datetime_cell parse (col_date r) = Some (col_date r')
             /\ r' = set_date r (col_date r'))
          l l'.
Proof.
  revert l'. induction l as [| r l IH]; simpl; intros l' H.
  - injection H as <-. constructor.
  - apply bind_Some in H. destruct H as (c & Hc & H).
    apply bind_Some in H. destruct H as (rest & Hrest & H).
    injection H as <-. constructor; [| now apply IH].
    split; [exact Hc | reflexivity].
Qed.

Lemma to_datetime_fixed (l l' : list (record date_cell)) :
  to_datetime parse l = Some l' -> to_datetime parse l' = Some l'.
Proof.
  intros H. apply to_datetime_rows in H.
  induction H as [| r r' l l' [Hc Hr] _ IH]; simpl.
  - reflexivity.
  - rewrite (to_datetime_cell_fixed _ _ Hc). simpl. rewrite IH. simpl.
    destruct r'; reflexivity.
Qed.

Lemma to_datetime_app (l1 l2 l1' l2' : list (record date_cell)) :
  to_datetime parse l1 = Some l1' ->
  to_datetime parse l2 = Some l2' ->
  to_datetime parse (l1 ++ l2) = Some (l1' ++ l2')%list.
Proof.
  revert l1'. induction l1 as [| r l1 IH]; simpl; intros l1' H1 H2.
  - injection H1 as <-. exact H2.
  - apply bind_Some in H1. destruct H1 as (c & Hc & H1).
    apply bind_Some in H1. destruct H1 as (rest & Hrest & H1).
    injection H1 as <-.
    rewrite Hc. simpl. rewrite (IH rest Hrest H2). reflexivity.
Qed.

(** The three outcomes of tab 2 on a frame whose dates convert. *)
Lemma tab2_cases (df : DataFrame) (m : Z) (l : list (record date_cell)) :
  rows df <> [] ->
  to_datetime parse (rows df) = Some l ->
  tab2 parse df m
  = Some (mkFrame (columns df) l,
          match m_df l m with
          | [] => StWarning m
          | _ :: _ => metrics (m_df l m)
          end).
Proof.
  intros Hne Hl. unfold tab2, empty.
  destruct (rows df) as [| r0 rest] eqn:E; [congruence |].
  rewrite Hl. simpl. destruct (m_df l m); reflexivity.
Qed.

Lemma tab2_empty (df : DataFrame) (m : Z) :
  rows df = [] -> tab2 parse df m = Some (df, StInfo).
Proof. intros E. unfold tab2, empty. now rewrite E. Qed.

Lemma tab2_Report (df df' : DataFrame) (m : Z) (inc exp bal : Q)
    (summary : option (list (group_key * Q))) :
  tab2 parse df m = Some (df', Report inc exp bal summary) ->
  exists l, to_datetime parse (rows df) = Some l
            /\ df' = mkFrame (columns df) l
            /\ metrics (m_df l m) = Report inc exp bal summary.
Proof.
  intros H.
  assert (Hd : rows df = [] \/ rows df <> []).
  { destruct (rows df); [now left | right; discriminate]. }
  destruct Hd as [E | Hne].
  - rewrite tab2_empty in H by exact E. discriminate.
  - destruct (to_datetime parse (rows df)) as [l |] eqn:Hl.
    + rewrite (tab2_cases df m l Hne Hl) in H.
      exists l. split; [reflexivity |].
      destruct (m_df l m) as [| r0 rest]; [discriminate |].
      split; congruence.
    + unfold tab2, empty in H.
      destruct (rows df); [congruence |].
      rewrite Hl in H. discriminate.
Qed.

End ReportFacts.

(** ** Years do not matter to the report *)

Lemma with_year_cols (f : date -> Z) (r : record date_cell) :
  col_amount (with_year f r) = col_amount r
  /\ col_type (with_year f r) = col_type r
  /\ key_of (with_year f r) = key_of r.
Proof.
  unfold with_year. destruct (col_date r) as [s | [| d]]; repeat split.
Qed.

Lemma of_type_with_year (f : date -> Z) (t : string)
    (l : list (record date_cell)) :
  of_type t (map (with_year f) l) = map (with_year f) (of_type t l).
Proof.
  unfold of_type. induction l as [| r l IH]; simpl; [reflexivity |].
  destruct (with_year_cols f r) as (_ & -> & _).
  destruct (String.eqb (col_type r) t); simpl; now rewrite IH.
Qed.

Lemma amounts_with_year (f : date -> Z) (l : list (record date_cell)) :
  map col_amount (map (with_year f) l) = map col_amount l.
Proof.
  rewrite map_map. apply map_ext. intros r. apply with_year_cols.
Qed.

Lemma groupby_sum_with_year (f : date -> Z) (l : list (record date_cell)) :
  groupby_sum (map (with_year f) l) = groupby_sum l.
Proof.
  unfold groupby_sum. generalize (@nil (group_key * Q)).
  induction l as [| r l IH]; intros acc; simpl; [reflexivity |].
  destruct (with_year_cols f r) as (-> & _ & ->). apply IH.
Qed.

Lemma metrics_with_year (f : date -> Z) (l : list (record date_cell)) :
  metrics (map (with_year f) l) = metrics l.
Proof.
  unfold metrics.
  rewrite !of_type_with_year, !amounts_with_year, groupby_sum_with_year.
  destruct (of_type "支出" l); reflexivity.
Qed.

Lemma to_datetime_converted (parse : string -> option timestamp)
    (l : list (record date_cell)) :
  Forall (fun r => exists t, col_date r = DTs t) l ->
  to_datetime parse l = Some l.
Proof.
  induction 1 as [| r l (t & Ht) _ IH]; simpl; [reflexivity |].
  rewrite Ht. simpl. rewrite IH. simpl.
  destruct r; simpl in *; now subst.
Qed.

Lemma to_datetime_all_converted (parse : string -> option timestamp)
    (l l' : list (record date_cell)) :
  to_datetime parse l = Some l' ->
  Forall (fun r => exists t, col_date r = DTs t) l'.
Proof.
  intros H. apply to_datetime_rows in H.
  induction H as [| r r' l l' [Hc _] _ IH]; constructor; [| exact IH].
  destruct (col_date r) as [s | t]; simpl in Hc.
  - destruct (parse s) as [t |]; [| discriminate].
    exists t. now injection Hc as <-.
  - exists t. now injection Hc as <-.
Qed.

Lemma with_year_converted (f : date -> Z) (l : list (record date_cell)) :
  Forall (fun r => exists t, col_date r = DTs t) l ->
  Forall (fun r => exists t, col_date r = DTs t) (map (with_year f) l).
Proof.
  intros H. apply Forall_map. eapply Forall_impl; [| exact H].
  intros r (t & Ht). unfold with_year. rewrite Ht.
  destruct t as [| d]; simpl; eauto.
Qed.

(** C1.  The report of a month is computed from exactly the rows whose
    date has that month number, whatever their year: moving any rows to
    other years changes neither which rows are selected nor anything
    the report shows. *)
Theorem C1_month_filter_ignores_year :
  forall (parse : string -> option timestamp) (df df' : DataFrame)
         (m : Z) (v : view),
    rows df <> [] ->
    tab2 parse df m = Some (df', v) ->
    v = match m_df (rows df') m with
        | [] => StWarning m
        | _ :: _ => metrics (m_df (rows df') m)
        end
    /\ (forall r, In r (m_df (rows df') m)
                  <-> In r (rows df')
                      /\ exists d, col_date r = DTs (Ts d) /\ month d = m)
    /\ (forall f : date -> Z,
          m_df (map (with_year f) (rows df')) m
          = map (with_year f) (m_df (rows df') m)
          /\ exists df'',
               tab2 parse (mkFrame (columns df')
                                   (map (with_year f) (rows df'))) m
               = Some (df'', v)).
Proof.
  intros parse df df' m v Hne H.
  destruct (to_datetime parse (rows df)) as [l |] eqn:Hl.
  - rewrite (tab2_cases parse df m l Hne Hl) in H.
    injection H as <- <-. cbn [rows columns].
    split; [reflexivity |].
    split; [intros r; apply m_df_In |].
    intros f. split; [apply m_df_with_year |].
    assert (Hl' : l <> []).
    { apply to_datetime_rows in Hl. destruct Hl; congruence. }
    assert (Hne' : rows (mkFrame (columns df) (map (with_year f) l)) <> []).
    { simpl. destruct l; [congruence | discriminate]. }
    assert (Hconv : to_datetime parse
                      (rows (mkFrame (columns df) (map (with_year f) l)))
                    = Some (map (with_year f) l)).
    { simpl. apply to_datetime_converted, with_year_converted.
      eapply to_datetime_all_converted; eassumption. }
    rewrite (tab2_cases parse _ m _ Hne' Hconv).
    rewrite m_df_with_year, metrics_with_year.
    eexists. f_equal. f_equal.
    destruct (m_df l m); reflexivity.
  - unfold tab2, empty in H. destruct (rows df); [congruence |].
    rewrite Hl in H. discriminate.
Qed.

Lemma sample_report :
  tab2 iso_date (load_df sample_sheet) 3 = Some (sample_frame, sample_view).
Proof. vm_compute. reflexivity. Qed.

Lemma C1_month_filter_ignores_year_witness :
  In (mkRecord (DTs (Ts (mkDate 2023 3 11))) "Kam" "支出" "家庭支出" "電費"
               (1 # 2)%Q "")
     (m_df (rows sample_frame) 3)
  /\ In (mkRecord (DTs (Ts (mkDate 2024 3 5))) "Kam" "支出" "家庭支出" "電費"
                  500%Q "")
        (m_df (rows sample_frame) 3).
Proof.
  assert (Hne : rows (load_df sample_sheet) <> []) by discriminate.
  destruct (C1_month_filter_ignores_year iso_date (load_df sample_sheet)
              sample_frame 3 sample_view Hne sample_report)
    as (_ & Hin & _).
  split; apply Hin; (split; [simpl; tauto | eexists; split; reflexivity]).
Defined.

(** C2, as the script has it.  Whenever the report shows totals: the
    income total is the sum of the amounts of the month's 收入 rows, the
    expense total that of the month's 支出 rows, the balance is income
    minus expense, and, the sums being taken exactly, the amounts of
    the lines of the detail table add up to the expense total.  (On the
    doubles of the script each sum is rounded on its own, and the lines
    can miss the total by the last digit: see the counterexample.) *)
Theorem C2_totals_balance_and_groups :
  forall (parse : string -> option timestamp) (df df' : DataFrame) (m : Z)
         (inc exp bal : Q) (summary : option (list (group_key * Q))),
    tab2 parse df m = Some (df', Report inc exp bal summary) ->
    (inc == col_sum (map col_amount
                         (filter (selected m "收入") (rows df'))))%Q
    /\ (exp == col_sum (map col_amount
                            (filter (selected m "支出") (rows df'))))%Q
    /\ (bal == inc - exp)%Q
    /\ (col_sum (map snd (lines summary)) == exp)%Q.
Proof.
  intros parse df df' m inc exp bal summary H.
  apply tab2_Report in H. destruct H as (l & _ & -> & H).
  unfold metrics in H. rewrite !of_type_m_df in H.
  injection H as <- <- <- <-. cbn [rows].
  repeat split; try reflexivity.
  destruct (filter (selected m "支出") l) as [| r rest] eqn:E.
  - reflexivity.
  - cbn [lines]. apply groupby_sum_total.
Qed.

Lemma C2_totals_balance_and_groups_witness :
  exists inc exp bal summary,
    sample_view = Report inc exp bal summary
    /\ (inc == 30000)%Q /\ (exp == 1001 # 2)%Q /\ (bal == 58999 # 2)%Q
    /\ (col_sum (map snd (lines summary)) == exp)%Q.
Proof.
  exists 30000%Q, (1001 # 2)%Q, (58999 # 2)%Q,
    (Some [(("家庭支出", "電費", "Kam"), (1001 # 2)%Q)]).
  split; [reflexivity |].
  split; [reflexivity |]. split; [reflexivity |]. split; [reflexivity |].
  exact (proj2 (proj2 (proj2
           (C2_totals_balance_and_groups iso_date (load_df sample_sheet)
              sample_frame 3 _ _ _ _ sample_report)))).
Defined.

(** C2, counterexample.  On doubles the lines do not add up to the
    expense total.  For three expenses of March, 0.30 and 0.10 under one
    key and 0.20 under another, the script shows the expense total
    0.6 (the double 0.59999999999999998) and the lines 0.2 and 0.4 (the
    double 0.40000000000000002); the lines add up to
    0.6000000000000001, and taken as the exact numbers they are, they
    do not add up to the total either. *)
Lemma C2_rounded_lines_miss_the_total :
  exists l,
    to_datetime iso_date (rows (load_df rounding_sheet)) = Some l
    /\ metrics64 (m_df l 3)
       = (0%float, cell64 (6 # 10), PrimFloat.opp (cell64 (6 # 10)),
          Some [(("個人支出", "購物", "Connie"), cell64 (1 # 5));
                (("個人支出", "購物", "Kam"), cell64 (2 # 5))])
    /\ sum64 [cell64 (1 # 5); cell64 (2 # 5)] = 0x1.3333333333334p-1%float
    /\ PrimFloat.eqb (sum64 [cell64 (1 # 5); cell64 (2 # 5)])
                     (cell64 (6 # 10)) = false
    /\ exists total line1 line2,
         exact (cell64 (6 # 10)) = Some total
         /\ exact (cell64 (1 # 5)) = Some line1
         /\ exact (cell64 (2 # 5)) = Some line2
         /\ ~ (line1 + line2 == total)%Q.
Proof.
  eexists. split; [vm_compute; reflexivity |].
  split; [vm_compute; reflexivity |].
  split; [vm_compute; reflexivity |].
  split; [vm_compute; reflexivity |].
  do 3 eexists.
  split; [vm_compute; reflexivity |].
  split; [vm_compute; reflexivity |].
  split; [vm_compute; reflexivity |].
  intros H. vm_compute in H. discriminate H.
Qed.



(** C9, as the script has it.  Reporting a month again gives the same
    view, and leaves the frame as the first report left it.  The first
    report does change the frame: it replaces each cell of the date
    column by the timestamp it converts to; the columns, the rows, their
    order and every other cell stay as they were. *)
Theorem C9_report_twice_same_view :
  forall (parse : string -> option timestamp) (df df' : DataFrame) (m : Z)
         (v : view),
    tab2 parse df m = Some (df', v) ->
    tab2 parse df' m = Some (df', v)
    /\ columns df' = columns df
    /\ Forall2 (fun r r' =>
                  to_datetime_cell parse (col_date r) = Some (col_date r')
                  /\ r' = set_date r (col_date r'))
               (rows df) (rows df').
Proof.
  intros parse df df' m v H.
  assert (Hd : rows df = [] \/ rows df <> []).
  { destruct (rows df); [now left | right; discriminate]. }
  destruct Hd as [E | Hne].
  - rewrite (tab2_empty parse df m E) in H. injection H as <- <-.
    split; [now apply tab2_empty |]. split; [reflexivity |].
    rewrite E. constructor.
  - destruct (to_datetime parse (rows df)) as [l |] eqn:Hl.
    + rewrite (tab2_cases parse df m l Hne Hl) in H. injection H as <- <-.
      cbn [rows columns].
      split; [| split; [reflexivity | now apply to_datetime_rows]].
      assert (Hl' : rows (mkFrame (columns df) l) <> []).
      { simpl. apply to_datetime_rows in Hl. destruct Hl; congruence. }
      rewrite (tab2_cases parse _ m l Hl'); [reflexivity |].
      simpl. eapply to_datetime_fixed; eassumption.
    + unfold tab2, empty in H. destruct (rows df); [congruence |].
      rewrite Hl in H. discriminate.
Qed.

Lemma C9_report_twice_same_view_witness :
  tab2 iso_date sample_frame 3 = Some (sample_frame, sample_view).
Proof.
  exact (proj1 (C9_report_twice_same_view iso_date (load_df sample_sheet)
                  sample_frame 3 sample_view sample_report)).
Defined.

(** C9, counterexample.  The report of March on the sample sheet hands
    back a frame that is not the frame it was given: the first date cell
    was the string 2024-03-05 and is now a timestamp. *)
Lemma C9_report_rewrites_the_date_column :
  tab2 iso_date (load_df sample_sheet) 3 = Some (sample_frame, sample_view)
  /\ sample_frame <> load_df sample_sheet
  /\ map col_date (firstn 1 (rows (load_df sample_sheet)))
     = [DStr "2024-03-05"]
  /\ map col_date (firstn 1 (rows sample_frame))
     = [DTs (Ts (mkDate 2024 3 5))].
Proof.
  split; [vm_compute; reflexivity |].
  split; [| split; reflexivity].
  intros H. apply (f_equal (fun d => map col_date (firstn 1 (rows d)))) in H.
  vm_compute in H. discriminate.
Qed.

(** C8, as the script has it.  A sheet without data loads as the empty
    frame of the seven columns, and tab 2 then shows the notice
    暫無資料。; on a frame with rows whose dates convert, a month
    without rows shows the notice of that month.  In both cases nothing
    is raised and no totals or detail table are computed. *)
Theorem C8_empty_store_and_empty_month :
  forall (parse : string -> option timestamp) (df : DataFrame) (m : Z)
         (l : list (record date_cell)),
    rows df <> [] ->
    to_datetime parse (rows df) = Some l ->
    m_df l m = [] ->
    tab2 parse df m = Some (mkFrame (columns df) l, StWarning m)
    /\ load_df [] = mkFrame COLUMNS []
    /\ List.length (columns (load_df [])) = 7%nat
    /\ (forall df0, rows df0 = [] -> tab2 parse df0 m = Some (df0, StInfo))
    /\ tab2 parse (load_df []) m = Some (load_df [], StInfo).
Proof.
  intros parse df m l Hne Hl Hm.
  split.
  - rewrite (tab2_cases parse df m l Hne Hl), Hm. reflexivity.
  - repeat split. intros df0 E. now apply tab2_empty.
Qed.

Lemma C8_empty_store_and_empty_month_witness :
  tab2 iso_date (load_df sample_sheet) 5
  = Some (mkFrame (columns (load_df sample_sheet)) (rows sample_frame),
          StWarning 5).
Proof.
  apply (C8_empty_store_and_empty_month iso_date (load_df sample_sheet) 5
           (rows sample_frame)).
  - discriminate.
  - vm_compute. reflexivity.
  - vm_compute. reflexivity.
Defined.

(** C8, counterexample.  The sample sheet has no row in May: the report
    of May is the notice of the month, not a report with totals 0 and
    empty tables. *)
Lemma C8_empty_month_is_a_notice :
  m_df (rows sample_frame) 5 = []
  /\ tab2 iso_date (load_df sample_sheet) 5 = Some (sample_frame, StWarning 5)
  /\ forall inc exp bal summary,
       tab2 iso_date (load_df sample_sheet) 5
       <> Some (sample_frame, Report inc exp bal summary).
Proof.
  split; [reflexivity |].
  split; [vm_compute; reflexivity |].
  intros inc exp bal summary H.
  assert (E : tab2 iso_date (load_df sample_sheet) 5
              = Some (sample_frame, StWarning 5)) by (vm_compute; reflexivity).
  rewrite E in H. discriminate.
Qed.




(** The date the form writes is the date the report reads back. *)
Lemma strftime_read_back :
  strftime (mkDate 2024 3 5) = "2024-03-05"
  /\ iso_date (strftime (mkDate 2024 3 5)) = Some (Ts (mkDate 2024 3 5)).
Proof. split; vm_compute; reflexivity. Qed.

(** * Further properties of the script *)

(** ** The default position, on any list of main categories *)

Lemma default_idx_some (tx_type member : string) (mains : list string) :
  exists i, default_idx tx_type member mains = Some i
            /\ (mains <> [] -> (i < List.length mains)%nat)
            /\ (i <> 0%nat -> nth_error mains i = Some "小朋友支出").
Proof.
  unfold default_idx.
  destruct (String.eqb tx_type "支出" && list_in member ["曦晴"; "曦朗"])%bool;
    cbn [andb].
  - destruct (list_in "小朋友支出" mains) eqn:Hin.
    + apply list_in_In in Hin.
      destruct (list_index_In _ _ Hin) as (i & Hi & Hlt & Hnth & _).
      exists i. repeat split; auto.
    + exists 0%nat. repeat split; [| congruence].
      intros Hne. destruct mains; [congruence | simpl; lia].
  - exists 0%nat. repeat split; [| congruence].
    intros Hne. destruct mains; [congruence | simpl; lia].
Qed.

(** X1.  Whatever the list of main categories, the kind and the member,
    the default position is computed without [list.index] raising.  It
    is a position of the list when the list is not empty, and it is the
    first position of 小朋友支出 exactly in the guarded case (kind 支出,
    member 曦晴 or 曦朗, 小朋友支出 in the list); in every other case it
    is 0. *)
Theorem X1_default_idx_never_raises :
  forall (tx_type member : string) (mains : list string),
    exists i,
      default_idx tx_type member mains = Some i
      /\ (mains <> [] -> (i < List.length mains)%nat)
      /\ (tx_type = "支出" /\ In member ["曦晴"; "曦朗"]
          /\ In "小朋友支出" mains ->
          nth_error mains i = Some "小朋友支出"
          /\ forall j, (j < i)%nat -> nth_error mains j <> Some "小朋友支出")
      /\ (~ (tx_type = "支出" /\ In member ["曦晴"; "曦朗"]
             /\ In "小朋友支出" mains) -> i = 0%nat).
Proof.
  intros tx_type member mains.
  destruct (default_idx_some tx_type member mains) as (i & Hi & Hlt & _).
  exists i. split; [exact Hi |]. split; [exact Hlt |]. split.
  - intros (-> & Hm & Hin). unfold default_idx in Hi.
    apply list_in_In in Hm. rewrite Hm in Hi.
    pose proof Hin as Hin'. apply list_in_In in Hin'. rewrite Hin' in Hi.
    rewrite String.eqb_refl in Hi. cbn [andb] in Hi.
    destruct (list_index_In _ _ Hin) as (i' & Hi' & _ & Hnth & Hfirst).
    assert (i' = i) by congruence. subst i'. now split.
  - intros Hnot. unfold default_idx in Hi.
    destruct (String.eqb tx_type "支出") eqn:E1; cbn [andb] in Hi;
      [| congruence].
    destruct (list_in member ["曦晴"; "曦朗"]) eqn:E2; cbn [andb] in Hi;
      [| congruence].
    destruct (list_in "小朋友支出" mains) eqn:E3; [| congruence].
    exfalso. apply Hnot. apply String.eqb_eq in E1.
    apply list_in_In in E2. apply list_in_In in E3. auto.
Qed.

(** ** The form reaches every entry of the table *)

Lemma selectbox_pick (options : list string) (index i : nat) (s : string) :
  (index < List.length options)%nat ->
  nth_error options i = Some s ->
  selectbox options index (Some i) = Some s.
Proof.
  intros Hlt Hi. unfold selectbox.
  destruct (nth_error options index) eqn:E; [exact Hi |].
  apply nth_error_None in E. lia.
Qed.

Lemma dict_get_key {V : Type} (d : list (string * V)) (k : string) (v : V) :
  dict_get d k = Some v -> In k (keys d).
Proof.
  intros H. apply dict_get_In in H. unfold keys.
  apply in_map_iff. now exists (k, v).
Qed.

Lemma in_taxonomy_inv (tx_type main_cat sub_cat : string) :
  in_taxonomy tx_type main_cat sub_cat = true ->
  exists mains subs,
    dict_get CATEGORIES tx_type = Some mains
    /\ dict_get mains main_cat = Some subs
    /\ In sub_cat subs.
Proof.
  unfold in_taxonomy, sub_options.
  destruct (dict_get CATEGORIES tx_type) as [mains |]; [| discriminate].
  destruct (dict_get mains main_cat) as [subs |] eqn:E; [| discriminate].
  intros H. apply list_in_In in H. now exists mains, subs.
Qed.

(** X2.  The default position only presets the main category.  From
    any state in which the form holds an entry, the four choice widgets
    reach every member of [MEMBERS] and every triple of the table: some
    picks make the form build the entry with that member, kind, main
    category and item, and with the date, the amount and the note the
    form held. *)
Theorem X2_picks_reach_every_entry_of_the_table :
  forall (f0 : form) (e0 : record string)
         (member tx_type main_cat sub_cat : string),
    entry f0 = Some e0 ->
    In member MEMBERS ->
    in_taxonomy tx_type main_cat sub_cat = true ->
    exists it im ic isub : nat,
      entry (mkForm (Some it) (Some im) (pick_date f0) (Some ic) (Some isub)
                    (typed_amount f0) (typed_note f0))
      = Some (mkRecord (col_date e0) member tx_type main_cat sub_cat
                       (col_amount e0) (col_note e0)).
Proof.
  intros f0 e0 member tx_type main_cat sub_cat He0 Hmem Htax.
  destruct (entry_date f0 e0 He0) as [Hdate Hnote].
  pose proof (entry_amount f0 e0 He0) as Hamount.
  destruct (in_taxonomy_inv _ _ _ Htax) as (mains & subs & Hmains & Hsubs & Hsub).
  assert (Htx : In tx_type ["支出"; "收入"]).
  { destruct (CATEGORIES_kinds _ _ Hmains) as [-> | ->]; simpl; auto. }
  destruct (In_nth_error _ _ Htx) as (it & Hit).
  destruct (In_nth_error _ _ Hmem) as (im & Him).
  pose proof (dict_get_key _ _ _ Hsubs) as Hmain.
  destruct (In_nth_error _ _ Hmain) as (ic & Hic).
  destruct (In_nth_error _ _ Hsub) as (isub & His).
  destruct (default_idx_some tx_type member (keys mains))
    as (idx & Hidx & Hlt & _).
  exists it, im, ic, isub.
  unfold entry. cbn [pick_tx pick_member pick_date pick_main pick_sub
                     typed_amount typed_note].
  rewrite (selectbox_pick _ 0 it tx_type) by (simpl; lia || exact Hit).
  cbn [bind].
  rewrite (selectbox_pick _ 0 im member) by (simpl; lia || exact Him).
  cbn [bind]. rewrite Hmains. cbn [bind]. rewrite Hidx. cbn [bind].
  rewrite (selectbox_pick _ idx ic main_cat);
    [| apply Hlt; intros E; rewrite E in Hmain; destruct Hmain | exact Hic].
  cbn [bind]. rewrite Hsubs. cbn [bind].
  rewrite (selectbox_pick _ 0 isub sub_cat);
    [| destruct subs; [destruct Hsub | simpl; lia] | exact His].
  cbn [bind]. rewrite Hamount. cbn [bind].
  rewrite Hdate, Hnote. reflexivity.
Qed.

Lemma X2_picks_reach_every_entry_of_the_table_witness :
  exists it im ic isub : nat,
    entry (mkForm (Some it) (Some im) (mkDate 2024 3 5) (Some ic) (Some isub)
                  (Some (85 # 2)%Q) "lunch")
    = Some (mkRecord "2024-03-05" "曦晴" "支出" "個人支出" "早午晚三餐"
                     (85 # 2)%Q "lunch").
Proof.
  apply (X2_picks_reach_every_entry_of_the_table
           (mkForm None None (mkDate 2024 3 5) None None (Some (85 # 2)%Q)
                   "lunch")
           (mkRecord "2024-03-05" "Connie" "支出" "家庭支出" "供樓"
                     (85 # 2)%Q "lunch")
           "曦晴" "支出" "個人支出" "早午晚三餐").
  - reflexivity.
  - simpl. tauto.
  - reflexivity.
Defined.

(** X3.  With the category and amount widgets untouched, the form holds
    a complete entry of the table for each of the two kinds and each of
    the four members: no widget refuses its preset.  The amount is 0,
    and the main category is 小朋友支出 exactly when the kind is 支出
    and the member is 曦晴 or 曦朗; otherwise it is the first main
    category of the kind. *)
Theorem X3_untouched_form_is_complete :
  forall (it im : nat) (d : date) (note : string),
    (it < 2)%nat ->
    (im < 4)%nat ->
    exists member tx_type main_cat sub_cat mains,
      entry (mkForm (Some it) (Some im) d None None None note)
      = Some (mkRecord (strftime d) member tx_type main_cat sub_cat 0%Q note)
      /\ nth_error MEMBERS im = Some member
      /\ in_taxonomy tx_type main_cat sub_cat = true
      /\ available_main tx_type = Some mains
      /\ (main_cat = "小朋友支出"
          <-> tx_type = "支出" /\ In member ["曦晴"; "曦朗"])
      /\ (main_cat <> "小朋友支出" -> nth_error mains 0 = Some main_cat).
Proof.
  intros it im d note Hit Him.
  assert (Ht : (it = 0 \/ it = 1)%nat) by lia.
  assert (Hm : (im = 0 \/ im = 1 \/ im = 2 \/ im = 3)%nat) by lia.
  destruct Ht as [-> | ->];
    destruct Hm as [-> | [-> | [-> | ->]]];
    do 5 eexists;
    (split; [reflexivity |]);
    (split; [reflexivity |]);
    (split; [reflexivity |]);
    (split; [reflexivity |]);
    (split;
     [ split;
       [ intros H;
         first [ discriminate H | split; [reflexivity | simpl; tauto] ]
       | intros [H1 H2];
         first [ discriminate H1 | reflexivity
               | exfalso; simpl in H2; intuition discriminate ] ]
     | intros H; first [ reflexivity | exfalso; apply H; reflexivity ] ]).
Qed.

Lemma X3_untouched_form_is_complete_witness :
  exists member tx_type main_cat sub_cat mains,
    entry (mkForm (Some 0%nat) (Some 3%nat) (mkDate 2024 3 5) None None None "")
    = Some (mkRecord (strftime (mkDate 2024 3 5)) member tx_type main_cat
                     sub_cat 0%Q "")
    /\ nth_error MEMBERS 3 = Some member
    /\ in_taxonomy tx_type main_cat sub_cat = true
    /\ available_main tx_type = Some mains
    /\ (main_cat = "小朋友支出"
        <-> tx_type = "支出" /\ In member ["曦晴"; "曦朗"])
    /\ (main_cat <> "小朋友支出" -> nth_error mains 0 = Some main_cat).
Proof.
  apply (X3_untouched_form_is_complete 0 3 (mkDate 2024 3 5) ""); lia.
Defined.

(** ** The month widget *)

Lemma month_range_nth (i : nat) (m : Z) :
  nth_error month_range i = Some m ->
  (m = Z.of_nat i + 1 /\ 1 <= m <= 12)%Z.
Proof.
  unfold month_range. intros H.
  assert (Hlt : (i < 12)%nat).
  { assert (Hs : nth_error (map Z.of_nat (seq 1 12)) i <> None)
      by congruence.
    apply nth_error_Some in Hs. rewrite length_map, length_seq in Hs.
    exact Hs. }
  rewrite nth_error_map in H.
  rewrite (nth_error_nth' (seq 1 12) 0%nat) in H
    by (rewrite length_seq; exact Hlt).
  rewrite seq_nth in H by exact Hlt. simpl in H.
  injection H as <-. lia.
Qed.

(** X4.  The month widget opens on the current month and offers the
    twelve month numbers and nothing else: whatever is picked, the
    report is asked for a month from 1 to 12; a current month outside
    1..12 would make the widget refuse its preset. *)
Theorem X4_month_widget :
  forall (current_month : Z),
    (1 <= current_month <= 12)%Z ->
    pick_month current_month None = Some current_month
    /\ (forall pick m, pick_month current_month pick = Some m ->
                       (1 <= m <= 12)%Z)
    /\ (forall m, (1 <= m <= 12)%Z ->
                  pick_month current_month (Some (Z.to_nat (m - 1))) = Some m)
    /\ (forall other pick, (other < 1 \/ 12 < other)%Z ->
                           pick_month other pick = None).
Proof.
  intros cm Hcm.
  assert (Hnth : forall m, (1 <= m <= 12)%Z ->
                           nth_error month_range (Z.to_nat (m - 1)) = Some m).
  { intros m Hm. unfold month_range. rewrite nth_error_map.
    rewrite (nth_error_nth' (seq 1 12) 0%nat) by (rewrite length_seq; lia).
    rewrite seq_nth by lia. simpl. f_equal. lia. }
  assert (Hle : (1 <=? cm)%Z = true) by (apply Z.leb_le; lia).
  split; [| split; [| split]].
  - unfold pick_month, selectbox_of. now rewrite Hle, (Hnth cm Hcm).
  - intros pick m. unfold pick_month, selectbox_of.
    rewrite Hle, (Hnth cm Hcm). destruct pick as [i |].
    + intros H. now apply month_range_nth in H.
    + intros [= <-]. exact Hcm.
  - intros m Hm. unfold pick_month, selectbox_of.
    now rewrite Hle, (Hnth cm Hcm), (Hnth m Hm).
  - intros other pick Hother. unfold pick_month, selectbox_of.
    destruct (1 <=? other)%Z eqn:E; [| reflexivity].
    apply Z.leb_le in E.
    destruct (nth_error month_range (Z.to_nat (other - 1))) as [m |] eqn:En;
      [| reflexivity].
    apply month_range_nth in En. lia.
Qed.

Lemma X4_month_widget_witness :
  pick_month 11 None = Some 11%Z.
Proof.
  apply (X4_month_widget 11). lia.
Defined.

(** ** The latest records *)

Lemma tail_suffix {A : Type} (n : nat) (l : list A) :
  l = (firstn (List.length l - n) l ++ tail n l)%list.
Proof. unfold tail. symmetry. apply firstn_skipn. Qed.

Lemma tail_length {A : Type} (n : nat) (l : list A) :
  List.length (tail n l) = Nat.min n (List.length l).
Proof. unfold tail. rewrite length_skipn. lia. Qed.

Lemma tail_snoc {A : Type} (n : nat) (l : list A) (x : A) :
  tail (S n) (l ++ [x]) = (tail n l ++ [x])%list.
Proof.
  unfold tail. rewrite length_app. simpl.
  replace (List.length l + 1 - S n)%nat with (List.length l - n)%nat by lia.
  rewrite skipn_app.
  replace (List.length l - n - List.length l)%nat with 0%nat by lia.
  reflexivity.
Qed.

(** X5.  The table under the form is left out exactly when the frame has
    no rows; otherwise it shows the last five rows of the frame in
    frame order, or all of them when there are fewer than five, so the
    row loaded last is always the last one shown. *)
Theorem X5_recent_shows_the_last_rows :
  forall df : DataFrame,
    match recent df with
    | None => rows df = []
    | Some shown =>
        rows df <> []
        /\ List.length shown = Nat.min 5 (List.length (rows df))
        /\ (exists older, rows df = (older ++ shown)%list)
        /\ exists before last,
             shown = (before ++ [last])%list
             /\ exists before', rows df = (before' ++ [last])%list
    end.
Proof.
  intros df. unfold recent, empty.
  destruct (rows df) as [| r rest] eqn:E; [reflexivity |].
  rewrite <- E.
  assert (Hne : rows df <> []) by congruence.
  split; [exact Hne |]. split; [apply tail_length |].
  split; [eexists; apply tail_suffix |].
  destruct (exists_last Hne) as (before' & last & Hlast).
  rewrite Hlast. rewrite (tail_snoc 4 before' last).
  exists (tail 4 before'), last. split; [reflexivity |].
  now exists before'.
Qed.

(** ** A row more in the sheet *)

Lemma of_type_snoc {D : Type} (t : string) (m : list (record D))
    (r : record D) :
  of_type t (m ++ [r])
  = (of_type t m ++ (if String.eqb (col_type r) t then [r] else []))%list.
Proof. unfold of_type. rewrite filter_app. reflexivity. Qed.

Lemma totals_snoc {D : Type} (t : string) (m : list (record D))
    (r : record D) :
  (col_sum (map col_amount (of_type t (m ++ [r])))
   == col_sum (map col_amount (of_type t m))
      + (if String.eqb (col_type r) t then col_amount r else 0))%Q.
Proof.
  rewrite of_type_snoc, map_app, col_sum_app.
  destruct (String.eqb (col_type r) t); unfold col_sum at 2; simpl; ring.
Qed.

Section AppendFacts.

Variable parse : string -> option timestamp.

(** The report after one more row in the sheet, when the dates of the
    sheet convert and the date of the row converts to [t]. *)
Lemma tab2_append (sheet : worksheet) (e : record string) (t : timestamp)
    (l : list (record date_cell)) (m : Z) :
  to_datetime parse (rows (load_df sheet)) = Some l ->
  parse (col_date e) = Some t ->
  tab2 parse (load_df (save_entry sheet e)) m
  = Some (mkFrame COLUMNS (l ++ [set_date e (DTs t)]),
          match m_df (l ++ [set_date e (DTs t)]) m with
          | [] => StWarning m
          | _ :: _ => metrics (m_df (l ++ [set_date e (DTs t)]) m)
          end).
Proof.
  intros Hl Hparse. unfold save_entry, append_row.
  assert (Hrows : rows (load_df (sheet ++ [e])%list)
                  = (rows (load_df sheet)
                     ++ [set_date e (DStr (col_date e))])%list).
  { now rewrite !load_df_rows, map_app. }
  assert (Hconv : to_datetime parse (rows (load_df (sheet ++ [e])%list))
                  = Some (l ++ [set_date e (DTs t)])%list).
  { rewrite Hrows. apply to_datetime_app; [exact Hl |].
    simpl. rewrite Hparse. reflexivity. }
  assert (Hne : rows (load_df (sheet ++ [e])%list) <> []).
  { rewrite Hrows. intros H. apply app_eq_nil in H. destruct H; discriminate. }
  rewrite (tab2_cases parse _ m _ Hne Hconv), load_df_columns. reflexivity.
Qed.

Lemma tab2_loaded (sheet : worksheet) (l : list (record date_cell)) (m : Z) :
  sheet <> [] ->
  to_datetime parse (rows (load_df sheet)) = Some l ->
  tab2 parse (load_df sheet) m
  = Some (mkFrame COLUMNS l,
          match m_df l m with
          | [] => StWarning m
          | _ :: _ => metrics (m_df l m)
          end).
Proof.
  intros Hne Hl.
  assert (Hne' : rows (load_df sheet) <> []).
  { rewrite load_df_rows. destruct sheet; [congruence | discriminate]. }
  rewrite (tab2_cases parse _ m _ Hne' Hl), load_df_columns. reflexivity.
Qed.

End AppendFacts.

(** X6.  An entry saved from the form is a row of the report of the
    month of its date, as soon as the date the form writes reads back
    as that day and the dates already in the sheet convert: that report
    shows totals, computed from the former rows of the month followed
    by the entry; the cells summed for the entry's kind are the former
    ones followed by the entry's amount, the cells summed for any other
    kind are the former ones, and an expense entry has its key in the
    detail table. *)
Theorem X6_saved_entry_is_counted :
  forall (parse : string -> option timestamp) (sheet : worksheet)
         (f : form) (e : record string) (l : list (record date_cell)),
    entry f = Some e ->
    to_datetime parse (rows (load_df sheet)) = Some l ->
    parse (strftime (pick_date f)) = Some (Ts (pick_date f)) ->
    exists (df' : DataFrame) (month_rows : list (record date_cell))
           (inc exp bal : Q) (summary : option (list (group_key * Q))),
      month_rows
      = (m_df l (month (pick_date f))
         ++ [set_date e (DTs (Ts (pick_date f)))])%list
      /\ tab2 parse (load_df (save_entry sheet e)) (month (pick_date f))
         = Some (df', metrics month_rows)
      /\ metrics month_rows = Report inc exp bal summary
      /\ map col_amount (of_type (col_type e) month_rows)
         = (map col_amount
                (of_type (col_type e) (m_df l (month (pick_date f))))
            ++ [col_amount e])%list
      /\ (forall t, t <> col_type e ->
                    of_type t month_rows
                    = of_type t (m_df l (month (pick_date f))))
      /\ (col_type e = "支出" -> In (key_of e) (map fst (lines summary))).
Proof.
  intros parse sheet f e l He Hl Hparse.
  destruct (entry_date f e He) as [Hdate _].
  rewrite <- Hdate in Hparse.
  set (d := pick_date f) in *. set (e' := set_date e (DTs (Ts d))).
  rewrite (tab2_append parse sheet e (Ts d) l (month d) Hl Hparse).
  fold e'.
  assert (Hsel : m_df (l ++ [e']) (month d) = (m_df l (month d) ++ [e'])%list).
  { rewrite m_df_app. f_equal. unfold m_df. simpl. now rewrite Z.eqb_refl. }
  rewrite Hsel.
  destruct (m_df l (month d) ++ [e'])%list as [| r0 rest] eqn:E.
  { apply app_eq_nil in E. destruct E; discriminate. }
  rewrite <- E. unfold metrics at 2.
  do 6 eexists.
  split; [reflexivity |]. split; [reflexivity |]. split; [reflexivity |].
  split.
  { rewrite of_type_snoc, map_app.
    change (col_type e') with (col_type e). rewrite String.eqb_refl.
    reflexivity. }
  split.
  { intros t Ht. rewrite of_type_snoc.
    change (col_type e') with (col_type e).
    replace (String.eqb (col_type e) t) with false
      by (symmetry; apply String.eqb_neq; congruence).
    apply app_nil_r. }
  intros Htype. rewrite of_type_snoc.
  replace (String.eqb (col_type e') "支出") with true
    by (symmetry; apply String.eqb_eq; exact Htype).
  destruct (of_type "支出" (m_df l (month d)) ++ [e'])%list
    as [| r1 rest1] eqn:E1.
  { apply app_eq_nil in E1. destruct E1; discriminate. }
  rewrite <- E1. cbn [lines]. apply groupby_sum_keys.
  exists e'. split; [apply in_or_app; right; now left | reflexivity].
Qed.

Lemma X6_saved_entry_is_counted_witness :
  exists (df' : DataFrame) (month_rows : list (record date_cell)),
    tab2 iso_date
      (load_df (save_entry sample_sheet
                  (mkRecord "2024-03-05" "Connie" "支出" "家庭支出" "供樓"
                            0%Q "")))
      3
    = Some (df', metrics month_rows)
    /\ map col_amount (of_type "支出" month_rows)
       = [500%Q; (1 # 2)%Q; 0%Q].
Proof.
  destruct (X6_saved_entry_is_counted iso_date sample_sheet
              (mkForm None None (mkDate 2024 3 5) None None None "")
              (mkRecord "2024-03-05" "Connie" "支出" "家庭支出" "供樓" 0%Q "")
              (rows sample_frame) eq_refl eq_refl eq_refl)
    as (df' & month_rows & inc & exp & bal & summary
        & _ & H & _ & Hcol & _).
  exists df', month_rows. split; [exact H | exact Hcol].
Defined.

(** X7.  A row added to a sheet that has rows changes nothing in the
    report of a month its date is not in: a row dated in another month,
    or with an empty date cell, leaves the view of that month as it
    was. *)
Theorem X7_other_months_are_untouched :
  forall (parse : string -> option timestamp) (sheet : worksheet)
         (e : record string) (t : timestamp) (l : list (record date_cell))
         (m : Z),
    sheet <> [] ->
    to_datetime parse (rows (load_df sheet)) = Some l ->
    parse (col_date e) = Some t ->
    month_is m (DTs t) = false ->
    exists df1 df2 v,
      tab2 parse (load_df sheet) m = Some (df1, v)
      /\ tab2 parse (load_df (save_entry sheet e)) m = Some (df2, v).
Proof.
  intros parse sheet e t l m Hne Hl Hparse Hm.
  rewrite (tab2_loaded parse sheet l m Hne Hl).
  rewrite (tab2_append parse sheet e t l m Hl Hparse).
  assert (Hsel : m_df (l ++ [set_date e (DTs t)]) m = m_df l m).
  { rewrite m_df_app. unfold m_df at 2. cbn [filter].
    change (col_date (set_date e (DTs t))) with (DTs t). rewrite Hm.
    apply app_nil_r. }
  rewrite Hsel. do 3 eexists. split; reflexivity.
Qed.

Lemma X7_other_months_are_untouched_witness :
  exists df1 df2 v,
    tab2 iso_date (load_df sample_sheet) 3 = Some (df1, v)
    /\ tab2 iso_date
         (load_df (save_entry sample_sheet
                     (mkRecord "2024-04-02" "Kam" "支出" "交通費用" "泊車"
                               60%Q "")))
         3
       = Some (df2, v).
Proof.
  apply (X7_other_months_are_untouched iso_date sample_sheet
           (mkRecord "2024-04-02" "Kam" "支出" "交通費用" "泊車" 60%Q "")
           (Ts (mkDate 2024 4 2)) (rows sample_frame) 3).
  - discriminate.
  - vm_compute. reflexivity.
  - vm_compute. reflexivity.
  - reflexivity.
Defined.

(** X8.  A row whose kind is neither 收入 nor 支出 is counted in no
    total and has no line in the detail table, but it is a row of its
    month: the report of that month shows the totals computed from the
    other rows, and when it is the only row of the month the totals
    shown are all 0, without a detail table, in place of the notice of
    the month. *)
Theorem X8_other_kinds_count_for_nothing :
  forall (parse : string -> option timestamp) (sheet : worksheet)
         (e : record string) (d : date) (l : list (record date_cell)),
    to_datetime parse (rows (load_df sheet)) = Some l ->
    parse (col_date e) = Some (Ts d) ->
    col_type e <> "收入" ->
    col_type e <> "支出" ->
    exists df',
      tab2 parse (load_df (save_entry sheet e)) (month d)
      = Some (df', metrics (m_df l (month d)))
      /\ (m_df l (month d) = [] ->
          metrics (m_df l (month d)) = Report 0 0 0 None).
Proof.
  intros parse sheet e d l Hl Hparse Hinc Hexp.
  set (e' := set_date e (DTs (Ts d))).
  rewrite (tab2_append parse sheet e (Ts d) l (month d) Hl Hparse).
  fold e'.
  assert (Hsel : m_df (l ++ [e']) (month d) = (m_df l (month d) ++ [e'])%list).
  { rewrite m_df_app. f_equal. unfold m_df. simpl. now rewrite Z.eqb_refl. }
  rewrite Hsel.
  destruct (m_df l (month d) ++ [e'])%list as [| r0 rest] eqn:E.
  { apply app_eq_nil in E. destruct E; discriminate. }
  rewrite <- E. eexists. split.
  - f_equal. f_equal. unfold metrics. rewrite !of_type_snoc.
    replace (String.eqb (col_type e') "收入") with false
      by (symmetry; apply String.eqb_neq; exact Hinc).
    replace (String.eqb (col_type e') "支出") with false
      by (symmetry; apply String.eqb_neq; exact Hexp).
    rewrite !app_nil_r. reflexivity.
  - intros ->. reflexivity.
Qed.

Lemma X8_other_kinds_count_for_nothing_witness :
  exists df',
    tab2 iso_date
      (load_df (save_entry sample_sheet
                  (mkRecord "2024-05-02" "Kam" "轉賬" "其他" "其他" 75%Q "")))
      5
    = Some (df', Report 0 0 0 None).
Proof.
  destruct (X8_other_kinds_count_for_nothing iso_date sample_sheet
              (mkRecord "2024-05-02" "Kam" "轉賬" "其他" "其他" 75%Q "")
              (mkDate 2024 5 2) (rows sample_frame) eq_refl eq_refl)
    as (df' & H & _); [discriminate | discriminate |].
  exists df'. exact H.
Defined.

(** ** Dates that do not convert *)

Lemma to_datetime_None (parse : string -> option timestamp)
    (l : list (record date_cell)) :
  to_datetime parse l = None
  <-> exists r s, In r l /\ col_date r = DStr s /\ parse s = None.
Proof.
  induction l as [| r l IH]; simpl.
  - split; [discriminate | intros (r & s & [] & _)].
  - split.
    + destruct (to_datetime_cell parse (col_date r)) as [c |] eqn:Hc; simpl.
      * destruct (to_datetime parse l) as [l' |]; simpl; [discriminate |].
        intros _. destruct (proj1 IH eq_refl) as (r' & s & Hin & H).
        exists r', s. split; [now right | exact H].
      * intros _. destruct (col_date r) as [s | t] eqn:Hd; simpl in Hc.
        -- exists r, s. split; [now left |]. split; [exact Hd |].
           destruct (parse s); [discriminate | reflexivity].
        -- discriminate.
    + intros (r' & s & [<- | Hin] & Hd & Hp).
      * rewrite Hd. simpl. rewrite Hp. reflexivity.
      * destruct (to_datetime_cell parse (col_date r)); simpl;
          [| reflexivity].
        assert (H : to_datetime parse l = None).
        { apply IH. now exists r', s. }
        rewrite H. reflexivity.
Qed.

(** X9.  One date cell that [pd.to_datetime] cannot read, anywhere in
    the frame, stops the report of every month: the conversion of line
    118 raises before any month is looked at. *)
Theorem X9_unreadable_date_stops_every_report :
  forall (parse : string -> option timestamp) (df : DataFrame) (m : Z)
         (r : record date_cell) (s : string),
    In r (rows df) ->
    col_date r = DStr s ->
    parse s = None ->
    tab2 parse df m = None.
Proof.
  intros parse df m r s Hin Hd Hs.
  assert (Hnone : to_datetime parse (rows df) = None).
  { apply to_datetime_None. now exists r, s. }
  unfold tab2, empty. destruct (rows df) as [| r0 rest]; [destruct Hin |].
  rewrite Hnone. reflexivity.
Qed.

Lemma X9_unreadable_date_stops_every_report_witness :
  tab2 iso_date
    (load_df (sample_sheet
              ++ [mkRecord "??" "Kam" "支出" "個人支出" "購物" 20%Q ""])%list)
    4
  = None.
Proof.
  apply (X9_unreadable_date_stops_every_report iso_date _ 4
           (mkRecord (DStr "??") "Kam" "支出" "個人支出" "購物" 20%Q "")
           "??").
  - simpl. tauto.
  - reflexivity.
  - reflexivity.
Defined.

(** ** Amounts from 0 up *)

Lemma col_sum_nonneg (l : list Q) :
  Forall (fun x => 0 <= x)%Q l -> (0 <= col_sum l)%Q.
Proof.
  induction 1 as [| x l Hx _ IH].
  - unfold col_sum. simpl. apply Qle_refl.
  - rewrite col_sum_cons.
    setoid_replace 0%Q with (0 + 0)%Q at 1 by ring.
    now apply Qplus_le_compat.
Qed.

Lemma col_sum_filter_le {D : Type} (p : record D -> bool)
    (l : list (record D)) :
  Forall (fun r => 0 <= col_amount r)%Q l ->
  (0 <= col_sum (map col_amount (filter p l))
   /\ col_sum (map col_amount (filter p l)) <= col_sum (map col_amount l))%Q.
Proof.
  induction 1 as [| r l Hr _ [IH0 IH]]; simpl.
  - split; unfold col_sum; simpl; apply Qle_refl.
  - destruct (p r); simpl; rewrite ?col_sum_cons; split.
    + setoid_replace 0%Q with (0 + 0)%Q at 1 by ring.
      now apply Qplus_le_compat.
    + apply Qplus_le_compat; [apply Qle_refl | exact IH].
    + exact IH0.
    + setoid_replace (col_sum (map col_amount (filter p l)))
        with (0 + col_sum (map col_amount (filter p l)))%Q by ring.
      now apply Qplus_le_compat.
Qed.

Lemma to_datetime_amounts (parse : string -> option timestamp)
    (l l' : list (record date_cell)) :
  to_datetime parse l = Some l' ->
  Forall (fun r => 0 <= col_amount r)%Q l ->
  Forall (fun r => 0 <= col_amount r)%Q l'.
Proof.
  intros H. apply to_datetime_rows in H.
  induction H as [| r r' l l' [_ Hr] _ IH]; intros Hall; constructor.
  - inversion Hall; subst. rewrite Hr. assumption.
  - apply IH. now inversion Hall.
Qed.

(** X10.  When every amount of the frame is 0 or more, as every amount
    the form writes is, the report shows an income total and an expense
    total of 0 or more, a balance between minus the expense total and
    the income total, and no detail line under 0. *)
Theorem X10_nonnegative_amounts_give_nonnegative_totals :
  forall (parse : string -> option timestamp) (df df' : DataFrame) (m : Z)
         (inc exp bal : Q) (summary : option (list (group_key * Q))),
    Forall (fun r => 0 <= col_amount r)%Q (rows df) ->
    tab2 parse df m = Some (df', Report inc exp bal summary) ->
    (0 <= inc)%Q /\ (0 <= exp)%Q
    /\ (bal <= inc)%Q /\ (- exp <= bal)%Q
    /\ forall k v, In (k, v) (lines summary) -> (0 <= v)%Q.
Proof.
  intros parse df df' m inc exp bal summary Hall H.
  apply tab2_Report in H. destruct H as (l & Hl & -> & H).
  pose proof (to_datetime_amounts parse _ _ Hl Hall) as Hall'.
  unfold metrics in H. rewrite !of_type_m_df in H.
  injection H as <- <- <- <-.
  destruct (col_sum_filter_le (selected m "收入") l Hall') as [Hinc _].
  destruct (col_sum_filter_le (selected m "支出") l Hall') as [Hexp _].
  set (inc := col_sum (map col_amount (filter (selected m "收入") l))) in *.
  set (exp_df := filter (selected m "支出") l) in *.
  set (exp := col_sum (map col_amount exp_df)) in *.
  split; [exact Hinc |]. split; [exact Hexp |].
  split.
  { setoid_replace inc with (inc - 0)%Q at 2 by ring.
    unfold Qminus. apply Qplus_le_compat; [apply Qle_refl |].
    now apply Qopp_le_compat. }
  split.
  { setoid_replace (- exp)%Q with (0 - exp)%Q by ring.
    unfold Qminus. apply Qplus_le_compat; [exact Hinc | apply Qle_refl]. }
  intros k v Hin.
  assert (Hlines : In (k, v) (groupby_sum exp_df)).
  { destruct exp_df; [destruct Hin | exact Hin]. }
  assert (Hv : (v == col_sum (map col_amount
                                  (filter (fun r => key_eqb (key_of r) k)
                                          exp_df)))%Q).
  { rewrite <- groupby_sum_amount. symmetry.
    apply sorted_line_amount; [apply groupby_sum_sorted | exact Hlines]. }
  assert (Hall'' : Forall (fun r => 0 <= col_amount r)%Q exp_df).
  { apply Forall_forall. intros r Hr. apply filter_In in Hr.
    rewrite Forall_forall in Hall'. apply Hall'. tauto. }
  destruct (col_sum_filter_le (fun r => key_eqb (key_of r) k) exp_df Hall'')
    as [H0 _].
  rewrite Hv. exact H0.
Qed.

Lemma X10_nonnegative_amounts_give_nonnegative_totals_witness :
  (0 <= 30000)%Q /\ (0 <= 1001 # 2)%Q
  /\ (58999 # 2 <= 30000)%Q /\ (- (1001 # 2) <= 58999 # 2)%Q
  /\ forall k v,
       In (k, v) [(("家庭支出", "電費", "Kam"), (1001 # 2)%Q)] ->
       (0 <= v)%Q.
Proof.
  apply (X10_nonnegative_amounts_give_nonnegative_totals iso_date
           (load_df sample_sheet) sample_frame 3 30000%Q (1001 # 2)%Q
           (58999 # 2)%Q
           (Some [(("家庭支出", "電費", "Kam"), (1001 # 2)%Q)])).
  - repeat constructor; discriminate.
  - vm_compute. reflexivity.
Defined.

(** ** The order of the rows in the sheet *)

Lemma filter_perm {A : Type} (p : A -> bool) (l l' : list A) :
  Permutation l l' -> Permutation (filter p l) (filter p l').
Proof.
  induction 1 as [| x l l' _ IH | x y l | l l' l'' _ IH1 _ IH2]; simpl.
  - constructor.
  - destruct (p x); [now constructor | exact IH].
  - destruct (p x), (p y); try apply Permutation_refl.
    apply perm_swap.
  - eapply Permutation_trans; eassumption.
Qed.

Lemma col_sum_perm (l l' : list Q) :
  Permutation l l' -> (col_sum l == col_sum l')%Q.
Proof.
  induction 1 as [| x l l' _ IH | x y l | l l' l'' _ IH1 _ IH2].
  - reflexivity.
  - rewrite !col_sum_cons, IH. reflexivity.
  - rewrite !col_sum_cons. ring.
  - now rewrite IH1.
Qed.

Lemma amount_of_absent (k : group_key) (s : list (group_key * Q)) :
  ~ In k (map fst s) -> (amount_of k s == 0)%Q.
Proof.
  induction s as [| [k' v] rest IH]; simpl; intros Hn.
  - reflexivity.
  - rewrite amount_of_cons.
    destruct (key_eqb k' k) eqn:E.
    + apply key_eqb_eq in E. subst. tauto.
    + rewrite IH by tauto. ring.
Qed.

Lemma sorted_head_absent (k : group_key) (keys_rest : list group_key) :
  Forall (key_lt k) keys_rest -> ~ In k keys_rest.
Proof.
  intros Hall Hin. rewrite Forall_forall in Hall.
  now apply (key_lt_irrefl k), Hall.
Qed.

(** Two tables in strict key order with the same keys and, key by key,
    the same amounts are the same line by line. *)
Lemma sorted_tables_same (s1 s2 : list (group_key * Q)) :
  StronglySorted key_lt (map fst s1) ->
  StronglySorted key_lt (map fst s2) ->
  (forall k, In k (map fst s1) <-> In k (map fst s2)) ->
  (forall k, amount_of k s1 == amount_of k s2)%Q ->
  same_lines s1 s2.
Proof.
  revert s2. induction s1 as [| [k1 v1] r1 IH]; intros s2 H1 H2 Hk Ha.
  - destruct s2 as [| [k2 v2] r2]; [constructor |].
    exfalso. apply (proj2 (Hk k2)). now left.
  - destruct s2 as [| [k2 v2] r2].
    { exfalso. apply (proj1 (Hk k1)). now left. }
    simpl in H1, H2.
    inversion H1 as [| ? ? Hs1 Hall1]; subst.
    inversion H2 as [| ? ? Hs2 Hall2]; subst.
    assert (Heq : k1 = k2).
    { destruct (proj1 (Hk k1) (or_introl eq_refl)) as [E | Hin2];
        [now symmetry |].
      destruct (proj2 (Hk k2) (or_introl eq_refl)) as [E | Hin1];
        [exact E |].
      rewrite Forall_forall in Hall1, Hall2.
      exfalso. apply (key_lt_irrefl k1).
      eapply key_lt_trans; [apply Hall1, Hin1 | apply Hall2, Hin2]. }
    subst k2.
    pose proof (sorted_head_absent _ _ Hall1) as Hn1.
    pose proof (sorted_head_absent _ _ Hall2) as Hn2.
    assert (Hv : (v1 == v2)%Q).
    { specialize (Ha k1). rewrite !amount_of_cons in Ha.
      rewrite (proj2 (key_eqb_eq k1 k1) eq_refl) in Ha.
      rewrite (amount_of_absent _ _ Hn1), (amount_of_absent _ _ Hn2) in Ha.
      rewrite <- (Qplus_0_r v1), <- (Qplus_0_r v2). exact Ha. }
    constructor; [split; [reflexivity | exact Hv] |].
    apply IH; try assumption.
    + intros k. split; intros Hin.
      * destruct (proj1 (Hk k) (or_intror Hin)) as [E | H]; [| exact H].
        simpl in E. subst. contradiction.
      * destruct (proj2 (Hk k) (or_intror Hin)) as [E | H]; [| exact H].
        simpl in E. subst. contradiction.
    + intros k. specialize (Ha k). rewrite !amount_of_cons in Ha.
      destruct (key_eqb k1 k).
      * apply (Qplus_inj_l _ _ v1). rewrite Ha, Hv. reflexivity.
      * apply (Qplus_inj_l _ _ 0). exact Ha.
Qed.

Lemma groupby_sum_perm {D : Type} (l l' : list (record D)) :
  Permutation l l' -> same_lines (groupby_sum l) (groupby_sum l').
Proof.
  intros Hp. apply sorted_tables_same; try apply groupby_sum_sorted.
  - intros k. rewrite !groupby_sum_keys.
    split; intros (r & Hin & Hr); exists r; split; try assumption.
    + eapply Permutation_in; eassumption.
    + eapply Permutation_in; [apply Permutation_sym |]; eassumption.
  - intros k. rewrite !groupby_sum_amount.
    apply col_sum_perm, Permutation_map, filter_perm, Hp.
Qed.

Lemma metrics_perm (m m' : list (record date_cell)) :
  Permutation m m' -> same_view (metrics m) (metrics m').
Proof.
  intros Hp. unfold metrics, same_view.
  assert (Hinc : Permutation (of_type "收入" m) (of_type "收入" m'))
    by now apply filter_perm.
  assert (Hexp : Permutation (of_type "支出" m) (of_type "支出" m'))
    by now apply filter_perm.
  assert (Ei : (col_sum (map col_amount (of_type "收入" m))
                == col_sum (map col_amount (of_type "收入" m')))%Q)
    by now apply col_sum_perm, Permutation_map.
  assert (Ee : (col_sum (map col_amount (of_type "支出" m))
                == col_sum (map col_amount (of_type "支出" m')))%Q)
    by now apply col_sum_perm, Permutation_map.
  split; [exact Ei |]. split; [exact Ee |].
  split; [now rewrite Ei, Ee |].
  pose proof (groupby_sum_perm _ _ Hexp) as Hg.
  destruct (of_type "支出" m) as [| r rest] eqn:E1;
    destruct (of_type "支出" m') as [| r' rest'] eqn:E2.
  - exact I.
  - apply Permutation_nil in Hexp. discriminate.
  - apply Permutation_sym, Permutation_nil in Hexp. discriminate.
  - exact Hg.
Qed.

Section RowOrder.

Variable parse : string -> option timestamp.

Lemma to_datetime_map (l l' : list (record date_cell)) :
  to_datetime parse l = Some l' -> l' = map (converted parse) l.
Proof.
  revert l'. induction l as [| r l IH]; simpl; intros l' H.
  - now injection H as <-.
  - apply bind_Some in H. destruct H as (c & Hc & H).
    apply bind_Some in H. destruct H as (rest & Hrest & H).
    injection H as <-. unfold converted at 1. rewrite Hc.
    f_equal. now apply IH.
Qed.

Lemma to_datetime_perm (l1 l2 l1' : list (record date_cell)) :
  Permutation l1 l2 ->
  to_datetime parse l1 = Some l1' ->
  exists l2', to_datetime parse l2 = Some l2' /\ Permutation l1' l2'.
Proof.
  intros Hp H1.
  destruct (to_datetime parse l2) as [l2' |] eqn:H2.
  - exists l2'. split; [reflexivity |].
    rewrite (to_datetime_map _ _ H1), (to_datetime_map _ _ H2).
    now apply Permutation_map.
  - exfalso. apply to_datetime_None in H2.
    destruct H2 as (r & s & Hin & Hd & Hs).
    assert (Hnone : to_datetime parse l1 = None).
    { apply to_datetime_None. exists r, s. split; [| now split].
      eapply Permutation_in; [apply Permutation_sym |]; eassumption. }
    congruence.
Qed.

Lemma tab2_perm (df1 df2 : DataFrame) (m : Z) :
  Permutation (rows df1) (rows df2) ->
  match tab2 parse df1 m, tab2 parse df2 m with
  | Some (_, v1), Some (_, v2) => same_view v1 v2
  | None, None => True
  | _, _ => False
  end.
Proof.
  intros Hp.
  assert (Hd : rows df1 = [] \/ rows df1 <> []).
  { destruct (rows df1); [now left | right; discriminate]. }
  destruct Hd as [E | Hne].
  - assert (E2 : rows df2 = []).
    { rewrite E in Hp. now apply Permutation_nil in Hp. }
    rewrite (tab2_empty parse df1 m E), (tab2_empty parse df2 m E2).
    exact I.
  - assert (Hne2 : rows df2 <> []).
    { intros E2. rewrite E2 in Hp.
      apply Permutation_sym, Permutation_nil in Hp. contradiction. }
    destruct (to_datetime parse (rows df1)) as [l1 |] eqn:H1.
    + destruct (to_datetime_perm _ _ _ Hp H1) as (l2 & H2 & Hl).
      rewrite (tab2_cases parse df1 m l1 Hne H1),
        (tab2_cases parse df2 m l2 Hne2 H2).
      assert (Hm : Permutation (m_df l1 m) (m_df l2 m))
        by now apply filter_perm.
      pose proof (metrics_perm _ _ Hm) as Hv.
      destruct (m_df l1 m) as [| r1 rest1] eqn:E1;
        destruct (m_df l2 m) as [| r2 rest2] eqn:E2.
      * reflexivity.
      * apply Permutation_nil in Hm. discriminate.
      * apply Permutation_sym, Permutation_nil in Hm. discriminate.
      * exact Hv.
    + assert (H2 : to_datetime parse (rows df2) = None).
      { destruct (to_datetime parse (rows df2)) as [l2 |] eqn:H2;
          [| reflexivity].
        destruct (to_datetime_perm _ _ _ (Permutation_sym Hp) H2)
          as (l1 & H1' & _).
        congruence. }
      assert (N1 : tab2 parse df1 m = None).
      { unfold tab2, empty. destruct (rows df1); [congruence |].
        now rewrite H1. }
      assert (N2 : tab2 parse df2 m = None).
      { unfold tab2, empty. destruct (rows df2); [congruence |].
        now rewrite H2. }
      rewrite N1, N2. exact I.
Qed.

End RowOrder.

Lemma same_lines_keys (t1 t2 : list (group_key * Q)) :
  same_lines t1 t2 -> map fst t1 = map fst t2.
Proof.
  induction 1 as [| p q t1 t2 [Hk _] _ IH]; simpl; [reflexivity |].
  now rewrite Hk, IH.
Qed.

Lemma same_view_keys (v1 v2 : view) : same_view v1 v2 -> same_keys v1 v2.
Proof.
  destruct v1 as [| m1 | i1 e1 b1 s1], v2 as [| m2 | i2 e2 b2 s2];
    simpl; try tauto.
  intros (_ & _ & _ & H).
  destruct s1 as [t1 |], s2 as [t2 |]; simpl; try tauto.
  f_equal. now apply same_lines_keys.
Qed.

(** X11.  What the report lists does not depend on the order of the
    rows: two frames of converted dates with the same rows in different
    orders show the same notice, or both show totals with detail tables
    that list the same keys in the same order. *)
Theorem X11_table_keys_ignore_row_order :
  forall (parse : string -> option timestamp) (df1 df2 : DataFrame) (m : Z),
    Permutation (rows df1) (rows df2) ->
    Forall (fun r => exists t, col_date r = DTs t) (rows df1) ->
    exists df1' df2' v1 v2,
      tab2 parse df1 m = Some (df1', v1)
      /\ tab2 parse df2 m = Some (df2', v2)
      /\ same_keys v1 v2.
Proof.
  intros parse df1 df2 m Hp Hconv.
  pose proof (tab2_perm parse df1 df2 m Hp) as H.
  assert (H1 : tab2 parse df1 m <> None).
  { unfold tab2, empty. destruct (rows df1) as [| r0 rest] eqn:E;
      [discriminate |].
    rewrite (to_datetime_converted parse _ Hconv). cbn [bind].
    destruct (m_df (r0 :: rest) m); discriminate. }
  destruct (tab2 parse df1 m) as [[df1' v1] |]; [| congruence].
  destruct (tab2 parse df2 m) as [[df2' v2] |]; [| destruct H].
  exists df1', df2', v1, v2.
  split; [reflexivity |]. split; [reflexivity |].
  now apply same_view_keys.
Qed.

Lemma X11_table_keys_ignore_row_order_witness :
  exists df1' df2' v1 v2,
    tab2 iso_date sample_frame 3 = Some (df1', v1)
    /\ tab2 iso_date (mkFrame COLUMNS (rev (rows sample_frame))) 3
       = Some (df2', v2)
    /\ same_keys v1 v2.
Proof.
  apply (X11_table_keys_ignore_row_order iso_date sample_frame
           (mkFrame COLUMNS (rev (rows sample_frame))) 3).
  - apply Permutation_rev.
  - repeat constructor; eexists; reflexivity.
Defined.

(** ** A run of the script *)

Lemma load_df_empty (sheet : worksheet) :
  empty (load_df sheet) = match sheet with [] => true | _ :: _ => false end.
Proof. destruct sheet; reflexivity. Qed.

Lemma pass_recent (parse : string -> option timestamp) (sheet : worksheet)
    (f : form) (month_pick : option nat) (current_month : Z) (s : screen) :
  pass parse sheet f month_pick current_month = Some s ->
  shown_recent s = recent (load_df sheet).
Proof.
  unfold pass. intros H.
  apply bind_Some in H. destruct H as (e & _ & H).
  destruct (empty (load_df sheet)).
  - now injection H as <-.
  - apply bind_Some in H. destruct H as (m & _ & H).
    apply bind_Some in H. destruct H as (r & _ & H).
    now injection H as <-.
Qed.

(** X12.  A run of the script that renders a page never removes or
    changes a row of the sheet: with the button up the sheet is left as
    it was, and with the button down the sheet is the old one followed
    by the entry of the form and nothing else.  After a save the table
    of the latest records is shown, the saved entry is its last line,
    and at most four older rows stand before it. *)
Theorem X12_run_appends_the_entry_only :
  forall (parse : string -> option timestamp) (sheet sheet' : worksheet)
         (f : form) (clicked : bool) (month_pick : option nat)
         (current_month : Z) (s : screen),
    main parse (Some sheet) f clicked month_pick current_month
    = Some (sheet', s) ->
    exists e,
      entry f = Some e
      /\ sheet' = (if clicked then (sheet ++ [e])%list else sheet)
      /\ firstn (List.length sheet) sheet' = sheet
      /\ (clicked = true ->
          exists before,
            shown_recent s
            = Some (before ++ [set_date e (DStr (col_date e))])%list
            /\ (List.length before <= 4)%nat
            /\ exists older,
                 rows (load_df sheet) = (older ++ before)%list).
Proof.
  intros parse sheet sheet' f clicked month_pick current_month s H.
  unfold main in H. cbn [bind] in H.
  apply bind_Some in H. destruct H as (e & He & H).
  apply bind_Some in H. destruct H as (s0 & Hpass & H).
  injection H as <- <-.
  exists e. split; [exact He |]. split; [reflexivity |].
  split.
  { destruct clicked.
    - unfold save_entry, append_row.
      rewrite firstn_app, firstn_all, Nat.sub_diag. simpl.
      apply app_nil_r.
    - apply firstn_all. }
  intros ->. apply pass_recent in Hpass. rewrite Hpass.
  unfold save_entry, append_row, recent.
  rewrite load_df_empty.
  destruct (sheet ++ [e])%list as [| r0 rest] eqn:E.
  { apply app_eq_nil in E. destruct E; discriminate. }
  rewrite <- E, load_df_rows, map_app. cbn [map].
  rewrite (tail_snoc 4). eexists. split; [reflexivity |].
  split; [rewrite tail_length; lia |].
  rewrite load_df_rows. eexists. apply tail_suffix.
Qed.

Lemma X12_run_appends_the_entry_only_witness :
  exists e,
    entry (mkForm None None (mkDate 2024 3 5) None None None "") = Some e
    /\ (sample_sheet ++ [mkRecord "2024-03-05" "Connie" "支出" "家庭支出"
                                  "供樓" 0%Q ""])%list
       = (sample_sheet ++ [e])%list.
Proof.
  destruct (X12_run_appends_the_entry_only iso_date sample_sheet
              (sample_sheet
               ++ [mkRecord "2024-03-05" "Connie" "支出" "家庭支出" "供樓"
                            0%Q ""])%list
              (mkForm None None (mkDate 2024 3 5) None None None "")
              true None 3
              (mkScreen
                 (recent (load_df
                            (sample_sheet
                             ++ [mkRecord "2024-03-05" "Connie" "支出"
                                          "家庭支出" "供樓" 0%Q ""])%list))
                 (Report 30000 (1001 # 2) (58999 # 2)
                    (Some [(("家庭支出", "供樓", "Connie"), 0%Q);
                           (("家庭支出", "電費", "Kam"), (1001 # 2)%Q)]))))
    as (e & He & Hs & _).
  - vm_compute. reflexivity.
  - exists e. split; [exact He | exact Hs].
Defined.

(** ** The date the form writes *)

Lemma digit_val_digit (k : Z) : digit_val (digit k) = Some (k mod 10)%Z.
Proof.
  unfold digit_val, digit.
  assert (Hr : (0 <= k mod 10 < 10)%Z) by (apply Z.mod_pos_bound; lia).
  rewrite N_ascii_embedding by lia.
  replace (Z.of_N (48 + Z.to_N (k mod 10))) with (48 + k mod 10)%Z by lia.
  replace (48 <=? 48 + k mod 10)%Z with true by (symmetry; apply Z.leb_le; lia).
  replace (48 + k mod 10 <=? 57)%Z with true by (symmetry; apply Z.leb_le; lia).
  cbn [andb]. f_equal. lia.
Qed.

Lemma number_pad2 (n : Z) :
  (0 <= n <= 99)%Z -> number [digit (n / 10); digit n] = Some n.
Proof.
  intros Hn. unfold number. cbn [fold_left]. rewrite !digit_val_digit.
  cbv beta iota. f_equal. Z.div_mod_to_equations. lia.
Qed.

Lemma number_pad4 (n : Z) :
  (0 <= n <= 9999)%Z ->
  number [digit (n / 1000); digit (n / 100); digit (n / 10); digit n]
  = Some n.
Proof.
  intros Hn. unfold number. cbn [fold_left]. rewrite !digit_val_digit.
  cbv beta iota. f_equal. Z.div_mod_to_equations. lia.
Qed.

Lemma days_in_month_le (y m : Z) : (days_in_month y m <= 31)%Z.
Proof.
  unfold days_in_month.
  destruct (m =? 2)%Z; [destruct (leap y); lia |].
  destruct ((m =? 4) || (m =? 6) || (m =? 9) || (m =? 11))%Z; lia.
Qed.

(** X14.  The date string the form writes reads back as the day it was
    written for: for every day of the calendar with a year from 1678 to
    2261 (the years a pandas timestamp holds in full), the [%Y-%m-%d]
    string of the day is ten characters long and is read as that day. *)
Theorem X14_written_date_reads_back :
  forall d : date,
    (1678 <= year d <= 2261)%Z ->
    (1 <= month d <= 12)%Z ->
    (1 <= day d <= days_in_month (year d) (month d))%Z ->
    iso_date (strftime d) = Some (Ts d)
    /\ String.length (strftime d) = 10%nat.
Proof.
  intros [y m dd]. cbn [year month day]. intros Hy Hm Hd.
  pose proof (days_in_month_le y m) as H31.
  split; [| reflexivity].
  unfold strftime, pad4, pad2. cbn [year month day append].
  unfold iso_date.
  rewrite number_pad4 by lia. rewrite !number_pad2 by lia.
  replace (1 <=? y)%Z with true by (symmetry; apply Z.leb_le; lia).
  replace (1 <=? m)%Z with true by (symmetry; apply Z.leb_le; lia).
  replace (m <=? 12)%Z with true by (symmetry; apply Z.leb_le; lia).
  replace (1 <=? dd)%Z with true by (symmetry; apply Z.leb_le; lia).
  replace (dd <=? days_in_month y m)%Z with true
    by (symmetry; apply Z.leb_le; lia).
  reflexivity.
Qed.

Lemma X14_written_date_reads_back_witness :
  iso_date (strftime (mkDate 2024 2 29)) = Some (Ts (mkDate 2024 2 29))
  /\ String.length (strftime (mkDate 2024 2 29)) = 10%nat.
Proof.
  apply (X14_written_date_reads_back (mkDate 2024 2 29));
    cbn [year month day]; try lia.
  vm_compute. split; discriminate.
Defined.
